(** * SermonSlicer: the audio/video alignment script [cut.py]

    A shallow embedding of [cut.py] and the properties of its offset
    estimator ([find_audio_offset]) and of its pipeline ([process_video]).

    Samples are rationals: every floating-point sample is a rational
    number, and the correlation is the exact linear convolution that
    [scipy.signal.fftconvolve] approximates.  Floating-point rounding of
    the FFT is outside the model. *)

From Stdlib Require Import String Ascii DecimalString DecimalPos.
From Stdlib Require Import List ZArith QArith Qminmax Lia Lqa Bool.
Import ListNotations.

(* ================================================================= *)
(** * Part I.  Definitions                                             *)
(* ================================================================= *)

(** ** Results of a Python call *)

(** What a call may end in: a returned value, [sys.exit(code)] after a
    printed message, or an exception nobody catches. *)
Inductive exn : Type :=
| ValueError (message : string)
| CalledProcessError
| OSError
| LoadError.

Inductive outcome (A : Type) : Type :=
| Returned (a : A)
| Exited (code : Z) (message : string)
| Raised (e : exn).
Arguments Returned {A} a.
Arguments Exited {A} code message.
Arguments Raised {A} e.

(** ** Signals and the numeric primitives *)

Open Scope Q_scope.

Definition signal := list Q.

(** Sum of a list of rationals. *)
Definition sumQ (l : list Q) : Q := fold_right Qplus 0 l.

(** One output point of the full linear convolution:
    [(a * b)[n] = sum_{m=0..n} a[m] * b[n-m]], samples outside an array
    counting as zero. *)
Definition conv_at (a b : signal) (n : nat) : Q :=
  sumQ (map (fun m => nth m a 0 * nth (n - m) b 0) (seq 0 (S n))).

(** [fftconvolve(in1, in2, mode="full")] on one-dimensional arrays: an
    empty array when either input is empty, else the
    [len(in1) + len(in2) - 1] points of the linear convolution. *)
Definition fftconvolve (in1 in2 : signal) : signal :=
  match in1, in2 with
  | [], _ => []
  | _, [] => []
  | _, _ => map (conv_at in1 in2) (seq 0 (length in1 + length in2 - 1))
  end.

(** [np.argmax]: the index of the first occurrence of the maximum;
    it raises [ValueError] on an empty array ([None] here). *)
Fixpoint argmax_from (l : list Q) (i : nat) (best : Q) (besti : nat) : nat :=
  match l with
  | [] => besti
  | x :: l' =>
      if Qlt_le_dec best x then argmax_from l' (S i) x i
      else argmax_from l' (S i) best besti
  end.

Definition argmax (l : list Q) : option nat :=
  match l with
  | [] => None
  | x :: l' => Some (argmax_from l' 1 x 0)
  end.

(** [np.max] of a non-empty array. *)
Fixpoint max_from (l : list Q) (best : Q) : Q :=
  match l with
  | [] => best
  | x :: l' => if Qlt_le_dec best x then max_from l' x else max_from l' best
  end.

Definition amax (l : list Q) : option Q :=
  match l with
  | [] => None
  | x :: l' => Some (max_from l' x)
  end.

(** Python's two-argument [max(a, b)]: [b] only when it is strictly
    greater than [a]. *)
Definition py_max (a b : Q) : Q := if Qlt_le_dec a b then b else a.

(** ** The offset estimator, [find_audio_offset] *)

(** The sample rate both files are loaded at ([sr=14700]). *)
Definition sr : Z := 14700.

(** The acceptance threshold on the correlation peak. *)
Definition threshold : Q := 1000.

(** [wav_y[:sr*60]]: the first minute of the external audio. *)
Definition analysis_window : nat := Z.to_nat (sr * 60).
Definition truncate_probe (wav_y : signal) : signal :=
  firstn analysis_window wav_y.

(** [fftconvolve(video_y, wav_y[::-1], mode="full")]. *)
Definition correlation (video_y wav_y : signal) : signal :=
  fftconvolve video_y (rev wav_y).

(** [np.argmax(correlation) - len(wav_y)], in samples; [None] when
    [np.argmax] raises. *)
Definition best_offset (video_y wav_y : signal) : option Z :=
  match argmax (correlation video_y wav_y) with
  | None => None
  | Some am => Some (Z.of_nat am - Z.of_nat (length wav_y))%Z
  end.

(** [best_offset / sr], in seconds. *)
Definition offset_seconds (best : Z) : Q := inject_Z best / inject_Z sr.

Definition no_alignment_message : string :=
  "Error: No good alignment found.  Are you sure the audio and video match?".

Definition argmax_empty_message : string :=
  "attempt to get argmax of an empty sequence".

(** The body of [find_audio_offset] once both files are loaded:
    [video_y] is the audio of the video, [wav_y] the external audio.
    The correlation is the exact one: where the single-precision FFT
    rounds a peak across the threshold, or tells two equal values
    apart, the script can end otherwise than this function. *)
Definition find_audio_offset (video_y wav_y : signal) : outcome Q :=
  let wav_y := truncate_probe wav_y in
  let correlation := correlation video_y wav_y in
  match best_offset video_y wav_y, amax correlation with
  | Some best, Some peak =>
      if Qlt_le_dec peak threshold then Exited 1 no_alignment_message
      else Returned (py_max (offset_seconds best) 0)
  | _, _ => Raised (ValueError argmax_empty_message)
  end.

(** The length of a signal in seconds at the working sample rate. *)
Definition duration_seconds (y : signal) : Q :=
  inject_Z (Z.of_nat (length y)) / inject_Z sr.

(** The confidence the script prints: [np.max(correlation)]. *)
Definition confidence (video_y wav_y : signal) : option Q :=
  amax (correlation video_y (truncate_probe wav_y)).


(** Dot product of two signals over their common length. *)
Fixpoint dot (a b : signal) : Q :=
  match a, b with
  | x :: a', y :: b' => x * y + dot a' b'
  | _, _ => 0
  end.

(** The self-correlation peak of a signal: its energy. *)
Definition energy (a : signal) : Q := dot a a.



Close Scope Q_scope.

(** ** Python strings: [strip], [isdigit], [int], [str] *)

(** Text is modelled as ASCII, which is what [ffprobe] prints. *)
Definition is_space (c : ascii) : bool :=
  let n := nat_of_ascii c in
  ((9 <=? n) && (n <=? 13) || (28 <=? n) && (n <=? 32))%nat.

Definition is_digit (c : ascii) : bool :=
  let n := nat_of_ascii c in ((48 <=? n) && (n <=? 57))%nat.

Fixpoint lstrip (s : string) : string :=
  match s with
  | EmptyString => EmptyString
  | String c s' => if is_space c then lstrip s' else s
  end.

Fixpoint rstrip (s : string) : string :=
  match s with
  | EmptyString => EmptyString
  | String c s' =>
      match rstrip s' with
      | EmptyString => if is_space c then EmptyString else String c EmptyString
      | r => String c r
      end
  end.

Definition strip (s : string) : string := rstrip (lstrip s).

Fixpoint all_digits (s : string) : bool :=
  match s with
  | EmptyString => true
  | String c s' => is_digit c && all_digits s'
  end.

(** [s.isdigit()]: at least one character, and digits only. *)
Definition isdigit (s : string) : bool :=
  match s with
  | EmptyString => false
  | _ => all_digits s
  end.

Fixpoint int_acc (s : string) (acc : Z) : Z :=
  match s with
  | EmptyString => acc
  | String c s' => int_acc s' (10 * acc + Z.of_nat (nat_of_ascii c - 48))
  end.

(** [int(s)] on a string of ASCII digits; the interpreter reads at
    most 4300 digits (more raise [ValueError]), a limit that is not
    part of this value. *)
Definition py_int (s : string) : Z := int_acc s 0.

(** [str(bitrate)] for [bitrate : Optional[int]]. *)
Definition str_bitrate (bitrate : option Z) : string :=
  match bitrate with
  | None => "None"
  | Some n => NilZero.string_of_int (Z.to_int n)
  end.

(** ** The outside world *)

(** A [pathlib] path, by its parts. *)
Definition path := list string.

Definition path_eqb (p q : path) : bool :=
  if list_eq_dec string_dec p q then true else false.

(** [p.parent]; the root is its own parent. *)
Definition parent (p : path) : path :=
  match p with
  | [r] => if String.eqb r "/" then [r] else []
  | _ => removelast p
  end.

(** [p / name]. *)
Definition child (p : path) (name : string) : path := p ++ [name].

(** One argument of a command line.  The text of a float is not
    modelled: [str(x)] and the f-string of the fade filter keep the
    number they print. *)
Inductive arg : Type :=
| Str (s : string)
| PathStr (p : path)            (* str(p) of a path *)
| FloatStr (x : Q)              (* str(x) of a number *)
| FadeStr (start : Q).          (* f"fade=t=out:st={start}:d=1" *)

Definition command := list arg.

(** What [subprocess.run] gives back: it raises (the tool cannot be
    started), or the process completes with a return code and its
    standard output. *)
Inductive run_result : Type :=
| RunRaised (e : exn)
| Completed (returncode : Z) (stdout : string).

(** The collaborators the script calls: the tools on the PATH, the
    processes it runs (each may change the files on disk), the decoder,
    and [float] on text. *)
Record env : Type := {
  which : string -> bool;
  run : command -> list path -> run_result * list path;
  librosa_load : path -> list path -> option (list Q);
  py_float : string -> option Q
}.

(** The calls [process_video] makes, in the order of its body. *)
Inductive step : Type :=
| CheckFfmpeg
| GetAudioDuration
| ExtractAudio
| FindAudioOffset
| GetVideoBitrate
| Transcode (cmd : command)
| Cleanup.

(** The files on disk and the calls made so far. *)
Record world : Type := {
  files : list path;
  trace : list step
}.

(** ** Programs with effects *)

Definition io (A : Type) : Type := world -> world * outcome A.

Definition ret {A} (a : A) : io A := fun w => (w, Returned a).

Definition bind {A B} (m : io A) (f : A -> io B) : io B :=
  fun w =>
    match m w with
    | (w', Returned a) => f a w'
    | (w', Exited code message) => (w', Exited code message)
    | (w', Raised e) => (w', Raised e)
    end.

Notation "x <- m ;; k" := (bind m (fun x => k))
  (at level 61, m at next level, right associativity).
Notation "m ;;; k" := (bind m (fun _ => k))
  (at level 61, right associativity).

Notation "m @@ w" := (m w) (at level 62, only parsing).

Definition sys_exit {A} (code : Z) (message : string) : io A :=
  fun w => (w, Exited code message).

Definition raise {A} (e : exn) : io A := fun w => (w, Raised e).

(** [try: m except <handles>: h]. *)
Definition try_except {A} (m : io A) (handles : exn -> bool)
    (h : exn -> io A) : io A :=
  fun w =>
    match m w with
    | (w', Raised e) => if handles e then h e w' else (w', Raised e)
    | r => r
    end.

Definition enter (s : step) : io unit :=
  fun w => ({| files := files w; trace := trace w ++ [s] |}, Returned tt).

(** [subprocess.run(cmd, check=check)], giving the standard output. *)
Definition subprocess_run (E : env) (cmd : command) (check : bool) : io string :=
  fun w =>
    let (r, fs) := run E cmd (files w) in
    let w' := {| files := fs; trace := trace w |} in
    match r with
    | RunRaised e => (w', Raised e)
    | Completed code out =>
        if check && negb (code =? 0)%Z then (w', Raised CalledProcessError)
        else (w', Returned out)
    end.

(** [p.unlink(missing_ok=True)]. *)
Definition unlink_missing_ok (p : path) : io unit :=
  fun w =>
    ({| files := filter (fun q => negb (path_eqb q p)) (files w);
        trace := trace w |}, Returned tt).

(** ** The functions of [cut.py] *)

Definition check_ffmpeg (E : env) : io unit :=
  if which E "ffmpeg" then ret tt
  else sys_exit 1 "Error: FFmpeg is not installed or not in PATH.".

Definition extract_command (input_file output_wav : path) : command :=
  [Str "ffmpeg"; Str "-y";
   Str "-i"; PathStr input_file;
   Str "-ac"; Str "1";
   Str "-ar"; Str "14700";
   Str "-vn"; Str "-f"; Str "wav";
   PathStr output_wav].

Definition extract_audio (E : env) (input_file output_wav : path) : io unit :=
  subprocess_run E (extract_command input_file output_wav) true ;;;
  ret tt.

(** [find_audio_offset] with its two [librosa.load] calls. *)
Definition find_audio_offset_io (E : env) (video_audio external_audio : path)
  : io Q :=
  fun w =>
    match librosa_load E video_audio (files w),
          librosa_load E external_audio (files w) with
    | Some video_y, Some wav_y => (w, find_audio_offset video_y wav_y)
    | _, _ => (w, Raised LoadError)
    end.

Definition is_CalledProcessError (e : exn) : bool :=
  match e with CalledProcessError => true | _ => false end.

Definition duration_query (audio_file : path) : command :=
  [Str "ffprobe"; Str "-i"; PathStr audio_file;
   Str "-show_entries"; Str "format=duration";
   Str "-v"; Str "quiet"; Str "-of"; Str "csv=p=0"].

Definition get_audio_duration (E : env) (audio_file : path) : io Q :=
  try_except
    (out <- subprocess_run E (duration_query audio_file) true ;;
     match py_float E (strip out) with
     | Some d => ret d
     | None => raise (ValueError "could not convert string to float")
     end)
    is_CalledProcessError
    (fun _ => sys_exit 1 "Error: Could not determine audio duration.").

Definition bitrate_query (video_file : path) : command :=
  [Str "ffprobe"; Str "-v"; Str "error";
   Str "-select_streams"; Str "v:0";
   Str "-show_entries"; Str "stream=bit_rate";
   Str "-of"; Str "default=noprint_wrappers=1:nokey=1";
   PathStr video_file].

Definition get_video_bitrate (E : env) (video_file : path) : io (option Z) :=
  try_except
    (out <- subprocess_run E (bitrate_query video_file) false ;;
     let bitrate := strip out in
     ret (if isdigit bitrate then Some (py_int bitrate) else None))
    (fun _ => true)
    (fun _ => ret None).

(** The command of the final pass. *)
Definition transcode_command (offset_seconds : Q) (input_video input_audio : path)
    (bitrate : option Z) (duration : Q) (output_video : path) : command :=
  [Str "ffmpeg"; Str "-y";
   Str "-ss"; FloatStr offset_seconds;
   Str "-i"; PathStr input_video;
   Str "-i"; PathStr input_audio;
   Str "-map"; Str "0:v:0";
   Str "-map"; Str "1:a:0";
   Str "-c:v"; Str "libx265";
   Str "-c:a"; Str "aac";
   Str "-b:v"; Str (str_bitrate bitrate);
   Str "-b:a"; Str "128k";
   Str "-t"; FloatStr duration;
   Str "-vf"; FadeStr (duration - 1)%Q;
   PathStr output_video].

Definition temp_audio (input_video : path) : path :=
  child (parent input_video) "temp_video_audio.wav".

Definition process_video (E : env) (input_video input_audio output_video : path)
  : io unit :=
  enter CheckFfmpeg ;;;
  check_ffmpeg E ;;;
  enter GetAudioDuration ;;;
  duration <- get_audio_duration E input_audio ;;
  let extracted_audio := temp_audio input_video in
  enter ExtractAudio ;;;
  extract_audio E input_video extracted_audio ;;;
  enter FindAudioOffset ;;;
  offset_seconds <- find_audio_offset_io E extracted_audio input_audio ;;
  enter GetVideoBitrate ;;;
  bitrate <- get_video_bitrate E input_video ;;
  let command :=
    transcode_command offset_seconds input_video input_audio bitrate duration
      output_video in
  enter (Transcode command) ;;;
  subprocess_run E command true ;;;
  enter Cleanup ;;;
  unlink_missing_ok extracted_audio.

(** The exit status of the interpreter: [sys.exit(code)] gives [code],
    an exception nobody catches gives 1. *)
Definition exit_code {A} (o : outcome A) : Z :=
  match o with
  | Returned _ => 0
  | Exited code _ => code
  | Raised _ => 1
  end.

(** A call that did not return. *)
Definition failed {A} (o : outcome A) : Prop :=
  match o with
  | Returned _ => False
  | _ => True
  end.

(** The same exit or exception, at two result types. *)
Definition same_failure {A B} (o : outcome A) (o' : outcome B) : Prop :=
  match o, o' with
  | Exited c m, Exited c' m' => c = c' /\ m = m'
  | Raised e, Raised e' => e = e'
  | _, _ => False
  end.

(** The calls of a complete run, in the order of the body of
    [process_video]. *)
Definition calls_before_transcode : list step :=
  [CheckFfmpeg; GetAudioDuration; ExtractAudio; FindAudioOffset;
   GetVideoBitrate].

Definition complete_run (cmd : command) : list step :=
  calls_before_transcode ++ [Transcode cmd; Cleanup].

(** The position of a call in the sequence
    [ExtractComparableAudio, EstimateOffset, ProbeMetadata,
    BuildRequest, Transcode, Cleanup], both probes counting as
    [ProbeMetadata] and the request being built with the transcode
    call. *)
Definition design_phase (s : step) : nat :=
  match s with
  | CheckFfmpeg => 0
  | ExtractAudio => 1
  | FindAudioOffset => 2
  | GetAudioDuration => 3
  | GetVideoBitrate => 3
  | Transcode _ => 5
  | Cleanup => 6
  end.

Fixpoint nondecreasing (l : list nat) : bool :=
  match l with
  | a :: ((b :: _) as l') => (a <=? b)%nat && nondecreasing l'
  | _ => true
  end.

Definition in_design_order (t : list step) : bool :=
  nondecreasing (map design_phase t).

(** Whether [b] comes right after [a] in a command line. *)
Fixpoint followed_by (a b : string) (cmd : command) : bool :=
  match cmd with
  | Str x :: ((Str y :: _) as rest) =>
      (String.eqb x a && String.eqb y b) || followed_by a b rest
  | _ :: rest => followed_by a b rest
  | [] => false
  end.

(** Whether the command line has the argument [a] at all. *)
Definition has_arg (a : string) (cmd : command) : bool :=
  existsb (fun x => match x with Str s => String.eqb s a | _ => false end) cmd.

(** A call that adds nothing to the trace. *)
Definition keeps_trace {A} (m : io A) : Prop :=
  forall w, trace (fst (m w)) = trace w.

(** How a run of [process_video] from the world [w0] can end: at the
    first call that does not return, or after the cleanup. *)
Inductive run_end (E : env) (input_video input_audio output_video : path)
    (w0 : world) : world -> outcome unit -> Prop :=
| EndCheck wf :
    trace wf = trace w0 ++ firstn 1 calls_before_transcode ->
    run_end E input_video input_audio output_video w0 wf
      (Exited 1 "Error: FFmpeg is not installed or not in PATH.")
| EndDuration wf o :
    failed o ->
    trace wf = trace w0 ++ firstn 2 calls_before_transcode ->
    run_end E input_video input_audio output_video w0 wf o
| EndExtract wf o :
    failed o ->
    trace wf = trace w0 ++ firstn 3 calls_before_transcode ->
    run_end E input_video input_audio output_video w0 wf o
| EndEstimate wf o (oq : outcome Q) :
    failed oq -> same_failure oq o ->
    ((oq = Raised LoadError /\
      exists fs, librosa_load E (temp_audio input_video) fs = None \/
                 librosa_load E input_audio fs = None) \/
     exists fs video_y wav_y,
       librosa_load E (temp_audio input_video) fs = Some video_y /\
       librosa_load E input_audio fs = Some wav_y /\
       oq = find_audio_offset video_y wav_y) ->
    trace wf = trace w0 ++ firstn 4 calls_before_transcode ->
    run_end E input_video input_audio output_video w0 wf o
| EndTranscode wf o duration offset bitrate fs video_y wav_y w4 w5 :
    librosa_load E (temp_audio input_video) fs = Some video_y ->
    librosa_load E input_audio fs = Some wav_y ->
    find_audio_offset video_y wav_y = Returned offset ->
    get_video_bitrate E input_video w4 = (w5, Returned bitrate) ->
    failed o ->
    trace wf =
      trace w0 ++ calls_before_transcode ++
      [Transcode (transcode_command offset input_video input_audio bitrate
                    duration output_video)] ->
    run_end E input_video input_audio output_video w0 wf o
| EndDone wf duration offset bitrate fs video_y wav_y w4 w5 :
    librosa_load E (temp_audio input_video) fs = Some video_y ->
    librosa_load E input_audio fs = Some wav_y ->
    find_audio_offset video_y wav_y = Returned offset ->
    get_video_bitrate E input_video w4 = (w5, Returned bitrate) ->
    trace wf =
      trace w0 ++
      complete_run (transcode_command offset input_video input_audio bitrate
                      duration output_video) ->
    ~ In (temp_audio input_video) (files wf) ->
    run_end E input_video input_audio output_video w0 wf (Returned tt).

(** ** A sample run *)

Definition sample_video : path := ["talks"; "sermon.mp4"]%string.
Definition sample_audio : path := ["talks"; "sermon.wav"]%string.
Definition sample_output : path := ["talks"; "sermon_synced.mp4"]%string.

Definition starts_with (tool flag : string) (cmd : command) : bool :=
  match cmd with
  | Str a :: Str b :: _ => String.eqb a tool && String.eqb b flag
  | _ => false
  end.

(** Tools that behave: the duration query prints [12.5], the bitrate
    query prints [bitrate_out], the extraction writes the temporary
    file, and the final pass succeeds (writing the output) or fails as
    [transcode_ok] says.  The decoder gives [video_y] for the
    temporary file and [wav_y] for the external audio. *)
Definition sample_env (bitrate_out : string) (transcode_ok : bool)
    (video_y wav_y : signal) : env :=
  {| which := fun _ => true;
     run := fun cmd fs =>
       if starts_with "ffprobe" "-i" cmd then (Completed 0 "12.5", fs)
       else if starts_with "ffprobe" "-v" cmd then (Completed 0 bitrate_out, fs)
       else if has_arg "-vn" cmd
       then (Completed 0 "", temp_audio sample_video :: fs)
       else if transcode_ok then (Completed 0 "", sample_output :: fs)
       else (Completed 1 "", fs);
     librosa_load := fun p _ =>
       if path_eqb p sample_audio then Some wav_y else Some video_y;
     py_float := fun _ => Some (25 # 2)%Q |}.

Definition start_world : world :=
  {| files := [sample_video; sample_audio]; trace := [] |}.

(** The run of [process_video] on the sample files with those tools. *)
Definition sample_run (bitrate_out : string) (transcode_ok : bool)
    (video_y wav_y : signal) : world * outcome unit :=
  process_video (sample_env bitrate_out transcode_ok video_y wav_y)
    sample_video sample_audio sample_output start_world.

(** ** Signals the further properties speak of *)


(** Every sample is zero. *)
Definition silent (a : signal) : Prop := Forall (fun x => (x == 0)%Q) a.

(** The number of samples of a signal, as a rational. *)
Definition samples (a : signal) : Q := inject_Z (Z.of_nat (length a)).

(** Every sample lies in [[-1, 1]], the range of decoded PCM audio. *)
Definition normalised (a : signal) : Prop :=
  Forall (fun x => (-1 <= x)%Q /\ (x <= 1)%Q) a.

(** ** The [__main__] block *)

(** [p.exists()]. *)
Definition path_exists (p : path) : io bool :=
  fun w => (w, Returned (existsb (path_eqb p) (files w))).

(** [not a] and [a or b], the latter evaluating [b] only when [a] is
    false. *)
Definition py_not (a : io bool) : io bool := x <- a ;; ret (negb x).

Definition py_or (a b : io bool) : io bool :=
  x <- a ;; if x then ret true else b.

Definition usage_message : string :=
  "Usage: python process_video.py <input.mp4> <input.wav> <output.mp4>".

Definition missing_input_message : string :=
  "Error: One or more input files do not exist.".

(** The body under [if __name__ == "__main__"], for the argument
    vector [argv] (the script name first); [Path] is the constructor of
    [pathlib] paths from text. *)
Definition main (E : env) (Path : string -> path) (argv : list string)
  : io unit :=
  if (length argv <? 4)%nat then sys_exit 1 usage_message
  else
    let input_video := Path (nth 1 argv EmptyString) in
    let input_audio := Path (nth 2 argv EmptyString) in
    let output_video := Path (nth 3 argv EmptyString) in
    missing <- py_or (py_not (path_exists input_video))
                     (py_not (path_exists input_audio)) ;;
    if missing then sys_exit 1 missing_input_message
    else process_video E input_video input_audio output_video.

(** ** Reading a command line *)

(** The argument that follows the first occurrence of [flag]. *)
Fixpoint arg_after (flag : string) (cmd : command) : option arg :=
  match cmd with
  | Str s :: rest =>
      if String.eqb s flag then hd_error rest else arg_after flag rest
  | _ :: rest => arg_after flag rest
  | [] => None
  end.

(** Whitespace only. *)
Fixpoint all_space (s : string) : bool :=
  match s with
  | EmptyString => true
  | String c s' => is_space c && all_space s'
  end.

(** ** What the tools leave behind *)

(** The world after [cmd] has run. *)
Definition after_run (E : env) (cmd : command) (w : world) : world :=
  {| files := snd (run E cmd (files w)); trace := trace w |}.

(** The bitrate [get_video_bitrate] makes of the reply to its query. *)
Definition bitrate_reply (r : run_result) : option Z :=
  match r with
  | RunRaised _ => None
  | Completed _ out =>
      if isdigit (strip out) then Some (py_int (strip out)) else None
  end.

(** From the files [fs0], every call up to the estimator succeeds:
    [ffmpeg] is found, the duration query gives [duration], the
    extraction leaves the files [fs2], and the estimator returns
    [offset] for the two signals decoded then. *)
Definition estimated (E : env) (input_video input_audio : path)
    (fs0 : list path) (duration offset : Q) (fs2 : list path) : Prop :=
  which E "ffmpeg" = true /\
  exists out1 fs1 out2 video_y wav_y,
    run E (duration_query input_audio) fs0 = (Completed 0 out1, fs1) /\
    py_float E (strip out1) = Some duration /\
    run E (extract_command input_video (temp_audio input_video)) fs1 =
      (Completed 0 out2, fs2) /\
    librosa_load E (temp_audio input_video) fs2 = Some video_y /\
    librosa_load E input_audio fs2 = Some wav_y /\
    find_audio_offset video_y wav_y = Returned offset.

(** The command of the final pass after those calls, with the bitrate
    the query gives on the files [fs2]. *)
Definition request (E : env) (input_video input_audio output_video : path)
    (duration offset : Q) (fs2 : list path) : command :=
  transcode_command offset input_video input_audio
    (bitrate_reply (fst (run E (bitrate_query input_video) fs2)))
    duration output_video.

(** The files the cleanup keeps: all but the temporary audio. *)
Definition not_temp_audio (input_video q : path) : bool :=
  negb (path_eqb q (temp_audio input_video)).

(** ** Tools that fail *)

(** Tools of which [ffmpeg] may be missing, and whose duration query
    and extraction answer as given; everything else succeeds. *)
Definition faulty_env (has_ffmpeg : bool)
    (duration_reply extract_reply : run_result) : env :=
  {| which := fun _ => has_ffmpeg;
     run := fun cmd fs =>
       if starts_with "ffprobe" "-i" cmd then (duration_reply, fs)
       else if has_arg "-vn" cmd then (extract_reply, temp_audio sample_video :: fs)
       else (Completed 0 "", fs);
     librosa_load := fun _ _ => Some [40%Q];
     py_float := fun s =>
       if String.eqb s "12.5" then Some (25 # 2)%Q else None |}.

(* ================================================================= *)
(** * Part II.  The estimator                                          *)
(* ================================================================= *)

Section Correlation.
Local Open Scope Q_scope.

(** ** Convolution, point by point *)

Lemma sumQ_zero (l : list Q) :
  Forall (fun x => x == 0) l -> sumQ l == 0.
Proof.
  induction 1 as [|x l Hx _ IH]; simpl; [reflexivity|].
  rewrite Hx, IH. ring.
Qed.

Lemma conv_at_nil (b : signal) (n : nat) : conv_at [] b n == 0.
Proof.
  unfold conv_at. apply sumQ_zero.
  apply Forall_forall. intros x Hx.
  apply in_map_iff in Hx. destruct Hx as [m [<- _]].
  destruct m; simpl; ring.
Qed.

(** The convolution peels the first sample of its left argument. *)
Lemma conv_at_cons (x : Q) (a b : signal) (n : nat) :
  conv_at (x :: a) b n ==
  x * nth n b 0 + match n with O => 0 | S n' => conv_at a b n' end.
Proof.
  unfold conv_at. rewrite <- cons_seq. cbn [map sumQ fold_right nth].
  rewrite Nat.sub_0_r. rewrite <- seq_shift, map_map.
  destruct n as [|n']; [reflexivity|]. reflexivity.
Qed.

(** ** Dot products *)

Lemma dot_nil_r (a : signal) : dot a [] = 0.
Proof. destruct a; reflexivity. Qed.


Lemma Qsqr_nonneg (x : Q) : 0 <= x * x.
Proof. nra. Qed.

Lemma energy_nonneg (a : signal) : 0 <= energy a.
Proof.
  unfold energy. induction a as [|x a IH]; simpl; [lra|].
  pose proof (Qsqr_nonneg x). lra.
Qed.


Lemma energy_skipn (t : nat) (p : signal) : energy (skipn t p) <= energy p.
Proof.
  revert p. induction t as [|t IH]; intros [|x p]; simpl; try lra.
  specialize (IH p). unfold energy in *. simpl.
  pose proof (Qsqr_nonneg x). lra.
Qed.





(** ** Correlation against a reversed signal *)

Lemma nth_skipn_cons (d : nat) (b : signal) :
  (d < length b)%nat -> skipn d b = nth d b 0 :: skipn (S d) b.
Proof.
  revert b. induction d as [|d IH]; intros [|y b] Hd; simpl in Hd; try lia.
  - reflexivity.
  - change (skipn d b = nth d b 0 :: skipn (S d) b). apply IH. lia.
Qed.

(** Up to index [len(b) - 1] the convolution with the reversed [b] is
    the dot product of [a] with [b] advanced by [d] samples. *)
Lemma conv_rev_low (a b : signal) (d : nat) :
  (d < length b)%nat ->
  conv_at a (rev b) (length b - 1 - d) == dot a (skipn d b).
Proof.
  revert d. induction a as [|x a IH]; intros d Hd.
  - rewrite conv_at_nil. reflexivity.
  - rewrite conv_at_cons, (nth_skipn_cons d b Hd). cbn [dot].
    rewrite rev_nth by lia.
    replace (length b - S (length b - 1 - d))%nat with d by lia.
    destruct (length b - 1 - d)%nat as [|n'] eqn:En.
    + replace (skipn (S d) b) with (@nil Q)
        by (symmetry; apply skipn_all2; lia).
      rewrite dot_nil_r. reflexivity.
    + replace n' with (length b - 1 - S d)%nat by lia.
      rewrite IH by lia. reflexivity.
Qed.

(** From index [len(b) - 1] on it is the dot product of [a] advanced
    by [e] samples with [b]. *)
Lemma conv_rev_high (a b : signal) (e : nat) :
  (0 < length b)%nat ->
  conv_at a (rev b) (length b - 1 + e) == dot (skipn e a) b.
Proof.
  intros Hb. revert a. induction e as [|e IH]; intros a.
  - rewrite Nat.add_0_r.
    replace (length b - 1)%nat with (length b - 1 - 0)%nat by lia.
    rewrite conv_rev_low by lia. reflexivity.
  - destruct a as [|x a].
    + rewrite conv_at_nil. reflexivity.
    + rewrite conv_at_cons.
      rewrite (nth_overflow (rev b)) by (rewrite length_rev; lia).
      replace (length b - 1 + S e)%nat with (S (length b - 1 + e)) by lia.
      rewrite IH. cbn [skipn]. ring.
Qed.





(** ** [np.argmax] and [np.max] *)




Lemma argmax_from_bound (l : list Q) (i : nat) (best : Q) (besti : nat) :
  (besti < i)%nat -> (argmax_from l i best besti < i + length l)%nat.
Proof.
  revert i best besti. induction l as [|x l IH]; intros i best besti Hi.
  - simpl. lia.
  - cbn [argmax_from length]. destruct (Qlt_le_dec best x).
    + specialize (IH (S i) x i). lia.
    + specialize (IH (S i) best besti). lia.
Qed.

(** The index [np.argmax] returns lies inside the array. *)
Lemma argmax_bound (l : list Q) (m : nat) :
  argmax l = Some m -> (m < length l)%nat.
Proof.
  destruct l as [|x l]; [discriminate|]. intros [= <-].
  pose proof (argmax_from_bound l 1 x 0). simpl. lia.
Qed.


Lemma max_from_ge (l : list Q) (best : Q) :
  best <= max_from l best /\ forall x, In x l -> x <= max_from l best.
Proof.
  revert best. induction l as [|x l IH]; intros best; cbn [max_from].
  - split; [lra|]. intros y [].
  - destruct (Qlt_le_dec best x) as [H|H].
    + destruct (IH x) as [H1 H2]. split; [lra|].
      intros y [<-|Hy]; [exact H1|apply H2, Hy].
    + destruct (IH best) as [H1 H2]. split; [exact H1|].
      intros y [<-|Hy]; [lra|apply H2, Hy].
Qed.

Lemma max_from_in (l : list Q) (best : Q) :
  max_from l best = best \/ In (max_from l best) l.
Proof.
  revert best. induction l as [|x l IH]; intros best; cbn [max_from].
  - left. reflexivity.
  - destruct (Qlt_le_dec best x).
    + destruct (IH x) as [->|H]; right; [left; reflexivity|right; exact H].
    + destruct (IH best) as [->|H]; [left; reflexivity|right; right; exact H].
Qed.

(** [np.max] is a value of the array, and no value is above it. *)
Lemma amax_spec (l : list Q) (M : Q) :
  amax l = Some M -> In M l /\ forall x, In x l -> x <= M.
Proof.
  destruct l as [|x l]; [discriminate|]. intros [= <-]. split.
  - destruct (max_from_in l x) as [->|H]; [left; reflexivity|right; exact H].
  - destruct (max_from_ge l x) as [H1 H2].
    intros y [<-|Hy]; [exact H1|apply H2, Hy].
Qed.

Lemma amax_some (l : list Q) : l <> [] -> exists M, amax l = Some M.
Proof. destruct l; [congruence|]. intros _. eexists. reflexivity. Qed.

(** ** The correlation array *)

Lemma correlation_empty (video_y wav_y : signal) :
  video_y = [] \/ wav_y = [] -> correlation video_y wav_y = [].
Proof.
  unfold correlation, fftconvolve. intros [->| ->]; [reflexivity|].
  destruct video_y; reflexivity.
Qed.

Lemma correlation_nonempty (video_y wav_y : signal) :
  video_y <> [] -> wav_y <> [] ->
  correlation video_y wav_y =
  map (conv_at video_y (rev wav_y))
      (seq 0 (length video_y + length wav_y - 1)).
Proof.
  intros Hv Hw. unfold correlation, fftconvolve.
  destruct video_y as [|x v]; [congruence|].
  destruct (rev wav_y) as [|y r] eqn:Er.
  - apply (f_equal (@length Q)) in Er. rewrite length_rev in Er.
    destruct wav_y; [congruence|discriminate].
  - rewrite <- Er, length_rev. reflexivity.
Qed.

(** The full correlation has [len(video_y) + len(wav_y) - 1] points. *)
Lemma correlation_length (video_y wav_y : signal) :
  video_y <> [] -> wav_y <> [] ->
  length (correlation video_y wav_y) =
  (length video_y + length wav_y - 1)%nat.
Proof.
  intros Hv Hw. rewrite correlation_nonempty by assumption.
  rewrite length_map, length_seq. reflexivity.
Qed.





Lemma length_pos (p : signal) : p <> [] -> (0 < length p)%nat.
Proof. destruct p; [congruence|simpl; lia]. Qed.





Lemma truncate_probe_short (wav_y : signal) :
  (length wav_y <= analysis_window)%nat -> truncate_probe wav_y = wav_y.
Proof. intros H. unfold truncate_probe. apply firstn_all2. exact H. Qed.




(** ** The three ways [find_audio_offset] ends *)

Lemma find_audio_offset_cases (video_y wav_y : signal) :
  (correlation video_y (truncate_probe wav_y) = [] /\
   find_audio_offset video_y wav_y = Raised (ValueError argmax_empty_message))
  \/
  (exists am c,
      argmax (correlation video_y (truncate_probe wav_y)) = Some am /\
      amax (correlation video_y (truncate_probe wav_y)) = Some c /\
      ((c < threshold /\
        find_audio_offset video_y wav_y = Exited 1 no_alignment_message)
       \/
       (threshold <= c /\
        find_audio_offset video_y wav_y =
        Returned (py_max (offset_seconds
                            (Z.of_nat am -
                             Z.of_nat (length (truncate_probe wav_y)))) 0)))).
Proof.
  unfold find_audio_offset, best_offset.
  destruct (correlation video_y (truncate_probe wav_y)) as [|x l] eqn:Ec.
  - left. split; reflexivity.
  - right. cbn [argmax amax].
    exists (argmax_from l 1 x 0), (max_from l x).
    split; [reflexivity|]. split; [reflexivity|].
    destruct (Qlt_le_dec (max_from l x) threshold) as [H|H].
    + left. split; [exact H|reflexivity].
    + right. split; [exact H|reflexivity].
Qed.

Lemma py_max_nonneg (a : Q) : 0 <= py_max a 0.
Proof. unfold py_max. destruct (Qlt_le_dec a 0); lra. Qed.

Lemma py_max_clamps (a : Q) : a < 0 -> py_max a 0 = 0.
Proof. unfold py_max. intros H. destruct (Qlt_le_dec a 0); [reflexivity|lra]. Qed.

Lemma py_max_keeps (a : Q) : 0 <= a -> py_max a 0 = a.
Proof. unfold py_max. intros H. destruct (Qlt_le_dec a 0); [lra|reflexivity]. Qed.

Lemma sr_pos : 0 < inject_Z sr.
Proof. reflexivity. Qed.

Lemma offset_seconds_le (a b : Z) :
  (a <= b)%Z -> offset_seconds a <= offset_seconds b.
Proof.
  intros H. unfold offset_seconds, Qdiv.
  apply Qmult_le_compat_r.
  - rewrite <- Zle_Qle. exact H.
  - apply Qlt_le_weak, Qinv_lt_0_compat, sr_pos.
Qed.

Lemma offset_seconds_lt (a b : Z) :
  (a < b)%Z -> offset_seconds a < offset_seconds b.
Proof.
  intros H. unfold offset_seconds, Qdiv.
  apply Qmult_lt_compat_r.
  - apply Qinv_lt_0_compat, sr_pos.
  - rewrite <- Zlt_Qlt. exact H.
Qed.

Lemma offset_seconds_0 : offset_seconds 0 == 0.
Proof. reflexivity. Qed.

Lemma truncate_probe_idem (wav_y : signal) :
  truncate_probe (truncate_probe wav_y) = truncate_probe wav_y.
Proof.
  unfold truncate_probe. rewrite firstn_firstn, Nat.min_id. reflexivity.
Qed.

Lemma truncate_probe_length (wav_y : signal) :
  (length (truncate_probe wav_y) <= analysis_window)%nat.
Proof. unfold truncate_probe. apply firstn_le_length. Qed.

(** ** Properties of the estimator *)







(** C4.  An offset that [find_audio_offset] returns is never negative:
    it is the raw offset [best_offset / sr], replaced by zero when that
    is negative. *)
Theorem offset_never_negative (video_y wav_y : signal) (x : Q) :
  find_audio_offset video_y wav_y = Returned x ->
  0 <= x /\
  exists best,
    best_offset video_y (truncate_probe wav_y) = Some best /\
    x = py_max (offset_seconds best) 0 /\
    (offset_seconds best < 0 -> x = 0).
Proof.
  intros Hr.
  destruct (find_audio_offset_cases video_y wav_y)
    as [[_ H]|[am [c [Ham [_ [[_ H]|[_ H]]]]]]];
    rewrite H in Hr; try discriminate.
  injection Hr as <-. split; [apply py_max_nonneg|].
  eexists. split; [|split].
  - unfold best_offset. rewrite Ham. reflexivity.
  - reflexivity.
  - apply py_max_clamps.
Qed.

Lemma offset_never_negative_witness :
  0 <= 0 /\
  exists best,
    best_offset [40] (truncate_probe [40]) = Some best /\
    0 = py_max (offset_seconds best) 0 /\
    (offset_seconds best < 0 -> 0 = 0).
Proof.
  apply (offset_never_negative [40] [40] 0). vm_compute. reflexivity.
Defined.

(** C5.  The probe is cut to its first [60 * 14700] samples before the
    correlation: the cut signal is the prefix of the probe that has
    [min(len(wav_y), 60 * 14700)] samples, a probe within the window
    is used unchanged, and the result depends on the probe through the
    cut signal only. *)
Theorem probe_truncated_to_window (video_y wav_y : signal) :
  (Z.of_nat (length (truncate_probe wav_y)) =
   Z.min (Z.of_nat (length wav_y)) (60 * 14700))%Z /\
  (exists rest, wav_y = truncate_probe wav_y ++ rest) /\
  ((Z.of_nat (length wav_y) <= 60 * 14700)%Z ->
   truncate_probe wav_y = wav_y) /\
  find_audio_offset video_y wav_y =
  find_audio_offset video_y (truncate_probe wav_y).
Proof.
  assert (Hw : Z.of_nat analysis_window = (60 * 14700)%Z).
  { unfold analysis_window, sr. lia. }
  split; [|split; [|split]].
  - unfold truncate_probe. rewrite length_firstn. lia.
  - exists (skipn analysis_window wav_y). unfold truncate_probe.
    symmetry. apply firstn_skipn.
  - intros H. apply truncate_probe_short. lia.
  - unfold find_audio_offset. rewrite truncate_probe_idem. reflexivity.
Qed.

Lemma probe_truncated_to_window_witness :
  (Z.of_nat (length (truncate_probe (repeat 1%Q (Z.to_nat 882001)))) =
   882000)%Z /\
  (exists rest,
      repeat 1%Q (Z.to_nat 882001) =
      truncate_probe (repeat 1%Q (Z.to_nat 882001)) ++ rest) /\
  truncate_probe [1; 2; 3] = [1; 2; 3].
Proof.
  destruct (probe_truncated_to_window [] (repeat 1%Q (Z.to_nat 882001)))
    as [H1 [H2 _]].
  destruct (probe_truncated_to_window [] [1; 2; 3]) as [_ [_ [H3 _]]].
  split; [|split].
  - rewrite H1, repeat_length. lia.
  - exact H2.
  - apply H3. simpl. lia.
Defined.

(** C9, as the code has it.  Nothing validates the input: with an
    empty signal on either side the correlation is empty and the
    function ends in the [ValueError] that [np.argmax] raises on an
    empty array.  The one division is by the constant sample rate. *)
Theorem empty_signal_raises (video_y wav_y : signal) :
  find_audio_offset [] wav_y = Raised (ValueError argmax_empty_message) /\
  find_audio_offset video_y [] = Raised (ValueError argmax_empty_message) /\
  0 < inject_Z sr.
Proof.
  split; [|split; [|exact sr_pos]].
  - destruct (find_audio_offset_cases [] wav_y)
      as [[_ H]|[am [c [Ham _]]]]; [exact H|].
    rewrite correlation_empty in Ham by (left; reflexivity). discriminate.
  - destruct (find_audio_offset_cases video_y [])
      as [[_ H]|[am [c [Ham _]]]]; [exact H|].
    rewrite correlation_empty in Ham.
    + discriminate.
    + right. unfold truncate_probe. apply firstn_nil.
Qed.

(** C9 as stated fails: on empty input the failure is the exception of
    the argmax computation, on an empty correlation. *)
Lemma empty_signal_argmax_error :
  correlation [] (truncate_probe []) = [] /\
  argmax (correlation [] (truncate_probe [])) = None /\
  find_audio_offset [] [] = Raised (ValueError argmax_empty_message).
Proof. vm_compute. repeat split. Qed.

(** C10.  A returned offset is strictly below the length of the video
    signal in seconds: the argmax is at most
    [len(video_y) + len(wav_y) - 2], so the lag is at most
    [len(video_y) - 2] samples. *)
Theorem offset_below_video_duration (video_y wav_y : signal) (x : Q) :
  find_audio_offset video_y wav_y = Returned x ->
  exists am,
    argmax (correlation video_y (truncate_probe wav_y)) = Some am /\
    (Z.of_nat am <= Z.of_nat (length video_y) +
                    Z.of_nat (length (truncate_probe wav_y)) - 2)%Z /\
    (Z.of_nat am - Z.of_nat (length (truncate_probe wav_y)) <=
     Z.of_nat (length video_y) - 2)%Z /\
    x < duration_seconds video_y.
Proof.
  intros Hr.
  destruct (find_audio_offset_cases video_y wav_y)
    as [[_ H]|[am [c [Ham [_ [[_ H]|[_ H]]]]]]];
    rewrite H in Hr; try discriminate.
  injection Hr as <-. exists am. split; [exact Ham|].
  pose proof (argmax_bound _ _ Ham) as Hb.
  assert (Hv : video_y <> []).
  { intros ->. rewrite correlation_empty in Ham by (left; reflexivity).
    discriminate. }
  assert (Hw : truncate_probe wav_y <> []).
  { intros E. rewrite correlation_empty in Ham by (right; exact E).
    discriminate. }
  rewrite correlation_length in Hb by assumption.
  pose proof (length_pos _ Hv). pose proof (length_pos _ Hw).
  split; [lia|]. split; [lia|].
  change (duration_seconds video_y)
    with (offset_seconds (Z.of_nat (length video_y))).
  set (best := (Z.of_nat am - Z.of_nat (length (truncate_probe wav_y)))%Z).
  assert (Hlt : offset_seconds best <
                offset_seconds (Z.of_nat (length video_y))).
  { apply offset_seconds_lt. unfold best. lia. }
  unfold py_max. destruct (Qlt_le_dec (offset_seconds best) 0); [|exact Hlt].
  rewrite <- offset_seconds_0. apply offset_seconds_lt. lia.
Qed.

Lemma offset_below_video_duration_witness :
  exists am,
    argmax (correlation [0; 0; 40] (truncate_probe [40])) = Some am /\
    (Z.of_nat am <= Z.of_nat (length [0; 0; 40]%Q) +
                    Z.of_nat (length (truncate_probe [40]%Q)) - 2)%Z /\
    (Z.of_nat am - Z.of_nat (length (truncate_probe [40]%Q)) <=
     Z.of_nat (length [0; 0; 40]%Q) - 2)%Z /\
    (1 # 14700) < duration_seconds [0; 0; 40].
Proof.
  apply (offset_below_video_duration [0; 0; 40] [40] (1 # 14700)).
  vm_compute. reflexivity.
Defined.

End Correlation.

(* ================================================================= *)
(** * Part III.  The pipeline                                          *)
(* ================================================================= *)

Section Pipeline.

Variable E : env.

(** ** Calls that leave the trace alone *)

Lemma keeps_trace_ret {A} (a : A) : keeps_trace (ret a).
Proof. intros w. reflexivity. Qed.

Lemma keeps_trace_sys_exit {A} (c : Z) (msg : string) :
  keeps_trace (@sys_exit A c msg).
Proof. intros w. reflexivity. Qed.

Lemma keeps_trace_raise {A} (e : exn) : keeps_trace (@raise A e).
Proof. intros w. reflexivity. Qed.

Lemma keeps_trace_bind {A B} (m : io A) (f : A -> io B) :
  keeps_trace m -> (forall a, keeps_trace (f a)) -> keeps_trace (bind m f).
Proof.
  intros Hm Hf w. unfold bind. specialize (Hm w).
  destruct (m w) as [w' [a|c msg|e]]; simpl in *; try exact Hm.
  rewrite Hf. exact Hm.
Qed.

Lemma keeps_trace_try_except {A} (m : io A) (handles : exn -> bool)
    (h : exn -> io A) :
  keeps_trace m -> (forall e, keeps_trace (h e)) ->
  keeps_trace (try_except m handles h).
Proof.
  intros Hm Hh w. unfold try_except. specialize (Hm w).
  destruct (m w) as [w' [a|c msg|e]]; simpl in *; try exact Hm.
  destruct (handles e); simpl; [rewrite Hh|]; exact Hm.
Qed.

Lemma keeps_trace_subprocess_run (cmd : command) (check : bool) :
  keeps_trace (subprocess_run E cmd check).
Proof.
  intros w. unfold subprocess_run.
  destruct (run E cmd (files w)) as [[e|code out] fs]; [reflexivity|].
  destruct (check && negb (code =? 0)%Z); reflexivity.
Qed.

Lemma keeps_trace_unlink (p : path) : keeps_trace (unlink_missing_ok p).
Proof. intros w. reflexivity. Qed.

Lemma keeps_trace_check_ffmpeg : keeps_trace (check_ffmpeg E).
Proof.
  unfold check_ffmpeg. destruct (which E "ffmpeg");
    [apply keeps_trace_ret|apply keeps_trace_sys_exit].
Qed.

Lemma keeps_trace_extract_audio (i o : path) : keeps_trace (extract_audio E i o).
Proof.
  unfold extract_audio. apply keeps_trace_bind.
  - apply keeps_trace_subprocess_run.
  - intros _. apply keeps_trace_ret.
Qed.

Lemma keeps_trace_get_audio_duration (f : path) :
  keeps_trace (get_audio_duration E f).
Proof.
  unfold get_audio_duration. apply keeps_trace_try_except.
  - apply keeps_trace_bind; [apply keeps_trace_subprocess_run|].
    intros out. destruct (py_float E (strip out));
      [apply keeps_trace_ret|apply keeps_trace_raise].
  - intros _. apply keeps_trace_sys_exit.
Qed.

Lemma keeps_trace_get_video_bitrate (f : path) :
  keeps_trace (get_video_bitrate E f).
Proof.
  unfold get_video_bitrate. apply keeps_trace_try_except.
  - apply keeps_trace_bind; [apply keeps_trace_subprocess_run|].
    intros out. apply keeps_trace_ret.
  - intros _. apply keeps_trace_ret.
Qed.

(** [find_audio_offset] changes nothing on disk; it ends as the
    estimator does on the two loaded signals, or in the decoder's
    exception. *)
Lemma find_audio_offset_io_run (va ea : path) (w w' : world) (o : outcome Q) :
  find_audio_offset_io E va ea w = (w', o) ->
  w' = w /\
  ((o = Raised LoadError /\
    (librosa_load E va (files w) = None \/
     librosa_load E ea (files w) = None)) \/
   exists video_y wav_y,
     librosa_load E va (files w) = Some video_y /\
     librosa_load E ea (files w) = Some wav_y /\
     o = find_audio_offset video_y wav_y).
Proof.
  unfold find_audio_offset_io.
  destruct (librosa_load E va (files w)) as [v|];
    [destruct (librosa_load E ea (files w)) as [y|]|];
    intros [= <- <-]; (split; [reflexivity|]);
    [right; exists v, y; auto|left; auto..].
Qed.

(** The bitrate query never stops the run. *)
Lemma get_video_bitrate_returns (f : path) (w : world) :
  exists w' b, get_video_bitrate E f w = (w', Returned b).
Proof.
  unfold get_video_bitrate, try_except, bind, subprocess_run, ret.
  destruct (run E _ (files w)) as [[e|code out] fs]; simpl; eauto.
Qed.

(** ** Stepping through a sequence *)

Lemma bind_enter {B} (s : step) (f : unit -> io B) (w : world) :
  bind (enter s) f w = f tt {| files := files w; trace := trace w ++ [s] |}.
Proof. reflexivity. Qed.

Lemma bind_returned {A B} (m : io A) (f : A -> io B) (w w' : world) (a : A) :
  m w = (w', Returned a) -> bind m f w = f a w'.
Proof. intros H. unfold bind. rewrite H. reflexivity. Qed.

Lemma bind_exited {A B} (m : io A) (f : A -> io B) (w w' : world)
    (c : Z) (msg : string) :
  m w = (w', Exited c msg) -> bind m f w = (w', Exited c msg).
Proof. intros H. unfold bind. rewrite H. reflexivity. Qed.

Lemma bind_raised {A B} (m : io A) (f : A -> io B) (w w' : world) (e : exn) :
  m w = (w', Raised e) -> bind m f w = (w', Raised e).
Proof. intros H. unfold bind. rewrite H. reflexivity. Qed.

Lemma keeps_trace_at {A} (m : io A) (w w' : world) (o : outcome A) :
  keeps_trace m -> m w = (w', o) -> trace w' = trace w.
Proof. intros Hk H. specialize (Hk w). rewrite H in Hk. exact Hk. Qed.

Lemma check_ffmpeg_run (w w' : world) (o : outcome unit) :
  check_ffmpeg E w = (w', o) ->
  o = Returned tt \/
  o = Exited 1 "Error: FFmpeg is not installed or not in PATH.".
Proof.
  unfold check_ffmpeg. destruct (which E "ffmpeg"); intros [= _ <-]; auto.
Qed.

Lemma unlink_removes (p : path) (w : world) :
  exists w', unlink_missing_ok p w = (w', Returned tt) /\
             ~ In p (files w') /\
             (forall q, q <> p -> In q (files w) -> In q (files w')).
Proof.
  eexists. split; [reflexivity|]. cbn [files]. split.
  - intros H. apply filter_In in H. destruct H as [_ H].
    unfold path_eqb in H. destruct (list_eq_dec string_dec p p); [discriminate|].
    congruence.
  - intros q Hq Hin. apply filter_In. split; [exact Hin|].
    unfold path_eqb. destruct (list_eq_dec string_dec q p); [contradiction|].
    reflexivity.
Qed.

Variables input_video input_audio output_video : path.

(** Every run of [process_video] ends in one of the six ways of
    [run_end]. *)
Lemma process_video_run (w0 wf : world) (o : outcome unit) :
  process_video E input_video input_audio output_video w0 = (wf, o) ->
  run_end E input_video input_audio output_video w0 wf o.
Proof.
  unfold process_video. intros H.
  rewrite bind_enter in H.
  match type of H with bind ?m _ ?w = _ =>
    destruct (m w) as [w1 o1] eqn:H1 end.
  pose proof (keeps_trace_at _ _ _ _ keeps_trace_check_ffmpeg H1) as T1.
  cbn [trace] in T1.
  destruct (check_ffmpeg_run _ _ _ H1) as [-> | ->].
  2:{ rewrite (bind_exited _ _ _ _ _ _ H1) in H. injection H as <- <-.
      apply EndCheck. exact T1. }
  rewrite (bind_returned _ _ _ _ _ H1) in H. clear H1.
  rewrite bind_enter in H.
  match type of H with bind ?m _ ?w = _ =>
    destruct (m w) as [w2 o2] eqn:H2 end.
  pose proof (keeps_trace_at _ _ _ _
                (keeps_trace_get_audio_duration input_audio) H2) as T2.
  cbn [trace] in T2. rewrite T1, <- app_assoc in T2.
  destruct o2 as [duration|c msg|e].
  2:{ rewrite (bind_exited _ _ _ _ _ _ H2) in H. injection H as <- <-.
      apply EndDuration; [exact I|exact T2]. }
  2:{ rewrite (bind_raised _ _ _ _ _ H2) in H. injection H as <- <-.
      apply EndDuration; [exact I|exact T2]. }
  rewrite (bind_returned _ _ _ _ _ H2) in H. clear H2.
  rewrite bind_enter in H.
  match type of H with bind ?m _ ?w = _ =>
    destruct (m w) as [w3 o3] eqn:H3 end.
  pose proof (keeps_trace_at _ _ _ _
                (keeps_trace_extract_audio _ _) H3) as T3.
  cbn [trace] in T3. rewrite T2, <- app_assoc in T3.
  destruct o3 as [[]|c msg|e].
  2:{ rewrite (bind_exited _ _ _ _ _ _ H3) in H. injection H as <- <-.
      apply EndExtract; [exact I|exact T3]. }
  2:{ rewrite (bind_raised _ _ _ _ _ H3) in H. injection H as <- <-.
      apply EndExtract; [exact I|exact T3]. }
  rewrite (bind_returned _ _ _ _ _ H3) in H. clear H3.
  rewrite bind_enter in H.
  match type of H with bind ?m _ ?w = _ =>
    destruct (m w) as [w4 o4] eqn:H4 end.
  destruct (find_audio_offset_io_run _ _ _ _ _ H4) as [-> Hest].
  cbn [files] in Hest.
  destruct o4 as [offset|c msg|e].
  2:{ rewrite (bind_exited _ _ _ _ _ _ H4) in H. injection H as <- <-.
      apply (EndEstimate _ _ _ _ _ _ _ (Exited c msg)).
      - exact I.
      - split; reflexivity.
      - destruct Hest as [[Hest _]|[v [y [Lv [Ly Hest]]]]]; [discriminate|].
        right. exists (files w3), v, y. auto.
      - cbn [trace]. rewrite T3, <- app_assoc. reflexivity. }
  2:{ rewrite (bind_raised _ _ _ _ _ H4) in H. injection H as <- <-.
      apply (EndEstimate _ _ _ _ _ _ _ (Raised e)).
      - exact I.
      - reflexivity.
      - destruct Hest as [[Hest Hl]|[v [y [Lv [Ly Hest]]]]].
        + left. split; [exact Hest|]. exists (files w3). exact Hl.
        + right. exists (files w3), v, y. auto.
      - cbn [trace]. rewrite T3, <- app_assoc. reflexivity. }
  destruct Hest as [[Hest _]|[video_y [wav_y [Lv [Ly Hest]]]]]; [discriminate|].
  symmetry in Hest.
  rewrite (bind_returned _ _ _ _ _ H4) in H. clear H4.
  rewrite bind_enter in H.
  match type of H with bind ?m _ ?w = _ =>
    destruct (get_video_bitrate_returns input_video w) as [w5 [bitrate H5]]
  end.
  pose proof (keeps_trace_at _ _ _ _
                (keeps_trace_get_video_bitrate input_video) H5) as T5.
  cbn [trace] in T5. rewrite T3, <- !app_assoc in T5. cbn [app] in T5.
  rewrite (bind_returned _ _ _ _ _ H5) in H.
  rewrite bind_enter in H.
  match type of H with bind ?m _ ?w = _ =>
    destruct (m w) as [w6 o6] eqn:H6 end.
  pose proof (keeps_trace_at _ _ _ _
                (keeps_trace_subprocess_run _ _) H6) as T6.
  cbn [trace] in T6. rewrite T5, <- !app_assoc in T6. cbn [app] in T6.
  destruct o6 as [out|c msg|e].
  2:{ rewrite (bind_exited _ _ _ _ _ _ H6) in H. injection H as <- <-.
      eapply EndTranscode;
        [exact Lv|exact Ly|exact Hest|exact H5|exact I|exact T6]. }
  2:{ rewrite (bind_raised _ _ _ _ _ H6) in H. injection H as <- <-.
      eapply EndTranscode;
        [exact Lv|exact Ly|exact Hest|exact H5|exact I|exact T6]. }
  rewrite (bind_returned _ _ _ _ _ H6) in H. clear H6.
  rewrite bind_enter in H.
  match type of H with unlink_missing_ok ?p ?w = _ =>
    destruct (unlink_removes p w) as [w7 [H7 [Hgone _]]] end.
  rewrite H7 in H. injection H as <- <-.
  pose proof (keeps_trace_at _ _ _ _ (keeps_trace_unlink _) H7) as T7.
  cbn [trace] in T7. rewrite T6, <- !app_assoc in T7. cbn [app] in T7.
  eapply EndDone; [exact Lv|exact Ly|exact Hest|exact H5|exact T7|exact Hgone].
Qed.

End Pipeline.

(* ================================================================= *)
(** * Part IV.  Properties of the pipeline                             *)
(* ================================================================= *)

Section Threshold.
Local Open Scope Q_scope.

(** A returned offset comes with a confidence that is not below the
    threshold. *)
Lemma returned_confidence (video_y wav_y : signal) (x : Q) :
  find_audio_offset video_y wav_y = Returned x ->
  exists c, confidence video_y wav_y = Some c /\ threshold <= c.
Proof.
  intros Hr.
  destruct (find_audio_offset_cases video_y wav_y)
    as [[_ H]|[am [c [_ [Hc [[_ H]|[Hge H]]]]]]];
    rewrite H in Hr; try discriminate.
  exists c. split; [exact Hc|exact Hge].
Qed.

(** A confidence below the threshold ends the estimator in
    [sys.exit(1)]. *)
Lemma low_confidence_exits (video_y wav_y : signal) (c : Q) :
  confidence video_y wav_y = Some c -> c < threshold ->
  find_audio_offset video_y wav_y = Exited 1 no_alignment_message.
Proof.
  unfold confidence. intros Hc Hlt.
  destruct (find_audio_offset_cases video_y wav_y)
    as [[He _]|[am [c' [_ [Hc' [[_ H]|[Hge _]]]]]]].
  - rewrite He in Hc. discriminate.
  - exact H.
  - rewrite Hc in Hc'. injection Hc' as <-. lra.
Qed.

End Threshold.

Ltac in_trace H :=
  cbn [trace app firstn calls_before_transcode complete_run In] in H;
  repeat (destruct H as [H|H]; try discriminate H); try contradiction.

Section Runs.
Local Open Scope Q_scope.

Variable E : env.
Variables input_video input_audio output_video : path.

(** C3, as the code has it.  The estimator returns an offset only
    with a confidence of at least 1000 and exits with code 1 and the
    no-alignment message below it; so the transcode command of a run
    carries an offset whose confidence is at least 1000, and a run that
    reaches the estimator with signals of lower confidence ends there,
    with exit code 1 and no transcode. *)
Theorem low_confidence_never_transcoded
    (fs0 : list path) (wf : world) (o : outcome unit) :
  process_video E input_video input_audio output_video
    {| files := fs0; trace := [] |} = (wf, o) ->
  (forall cmd, In (Transcode cmd) (trace wf) ->
     exists fs video_y wav_y x c d b,
       librosa_load E (temp_audio input_video) fs = Some video_y /\
       librosa_load E input_audio fs = Some wav_y /\
       find_audio_offset video_y wav_y = Returned x /\
       confidence video_y wav_y = Some c /\ threshold <= c /\
       cmd = transcode_command x input_video input_audio b d output_video) /\
  (forall video_y wav_y c,
     (forall fs, librosa_load E (temp_audio input_video) fs = Some video_y) ->
     (forall fs, librosa_load E input_audio fs = Some wav_y) ->
     confidence video_y wav_y = Some c -> c < threshold ->
     find_audio_offset video_y wav_y = Exited 1 no_alignment_message /\
     (In FindAudioOffset (trace wf) ->
      o = Exited 1 no_alignment_message /\ exit_code o = 1%Z /\
      forall cmd, ~ In (Transcode cmd) (trace wf))).
Proof.
  intros Hrun. apply process_video_run in Hrun. split.
  - intros cmd Hin.
    destruct Hrun as [wf T|wf o _ T|wf o _ T|wf o oq _ _ _ T
                     |wf o d x b fs v y w4 w5 Lv Ly Hest _ _ T
                     |wf d x b fs v y w4 w5 Lv Ly Hest _ T _];
      rewrite T in Hin; in_trace Hin;
      injection Hin as <-;
      destruct (returned_confidence v y x Hest) as [c [Hc Hge]];
      exists fs, v, y, x, c, d, b; auto 10.
  - intros v y c Lv Ly Hc Hlt.
    pose proof (low_confidence_exits v y c Hc Hlt) as Hexit.
    split; [exact Hexit|]. intros Hin.
    destruct Hrun as [wf T|wf o _ T|wf o _ T|wf o oq Hf Hsame Hload T
                     |wf o d x b fs v' y' w4 w5 Lv' Ly' Hest _ _ T
                     |wf d x b fs v' y' w4 w5 Lv' Ly' Hest _ T _].
    + rewrite T in Hin. in_trace Hin.
    + rewrite T in Hin. in_trace Hin.
    + rewrite T in Hin. in_trace Hin.
    + destruct Hload as [[_ [fs [Hn|Hn]]]|[fs [v' [y' [Lv' [Ly' ->]]]]]].
      * rewrite Lv in Hn. discriminate.
      * rewrite Ly in Hn. discriminate.
      * rewrite Lv in Lv'. rewrite Ly in Ly'.
        injection Lv' as <-. injection Ly' as <-.
        rewrite Hexit in Hsame. destruct o as [[]|code msg|e];
          try contradiction.
        destruct Hsame as [<- <-]. split; [reflexivity|].
        split; [reflexivity|]. intros cmd Hc'. rewrite T in Hc'.
        in_trace Hc'.
    + rewrite Lv in Lv'. rewrite Ly in Ly'.
      injection Lv' as <-. injection Ly' as <-.
      rewrite Hexit in Hest. discriminate.
    + rewrite Lv in Lv'. rewrite Ly in Ly'.
      injection Lv' as <-. injection Ly' as <-.
      rewrite Hexit in Hest. discriminate.
Qed.

(** C7, as the code has it.  The calls of a run are an initial
    segment of: tool check, duration query, extraction, estimation,
    bitrate query, transcode, cleanup; each call is made once the one
    before it has returned, and the segment is the whole sequence
    exactly when the run returns. *)
Theorem calls_in_source_order
    (fs0 : list path) (wf : world) (o : outcome unit) :
  process_video E input_video input_audio output_video
    {| files := fs0; trace := [] |} = (wf, o) ->
  exists cmd n,
    trace wf = firstn n (complete_run cmd) /\
    (1 <= n <= 7)%nat /\
    (o = Returned tt <-> n = 7%nat).
Proof.
  intros Hrun. apply process_video_run in Hrun.
  destruct Hrun as [wf T|wf o Hf T|wf o Hf T|wf o oq _ Hs _ T
                   |wf o d x b fs v y w4 w5 _ _ _ _ Hf T
                   |wf d x b fs v y w4 w5 _ _ _ _ T _];
    cbn [trace app] in T.
  - exists [], 1%nat. split; [exact T|]. split; [lia|].
    split; [discriminate|lia].
  - exists [], 2%nat. split; [exact T|]. split; [lia|].
    split; [intros ->; contradiction|lia].
  - exists [], 3%nat. split; [exact T|]. split; [lia|].
    split; [intros ->; contradiction|lia].
  - exists [], 4%nat. split; [exact T|]. split; [lia|].
    split; [|lia]. intros ->. destruct oq; contradiction.
  - eexists _, 6%nat. split; [exact T|]. split; [lia|].
    split; [intros ->; contradiction|lia].
  - eexists _, 7%nat. split; [exact T|]. split; [lia|].
    split; reflexivity.
Qed.

(** What [get_video_bitrate] returns: nothing when the query cannot be
    run or prints anything but digits, the number printed otherwise. *)
Lemma get_video_bitrate_result (w : world) :
  snd (get_video_bitrate E input_video w) =
  Returned
    match fst (run E (bitrate_query input_video) (files w)) with
    | RunRaised _ => None
    | Completed _ out =>
        if isdigit (strip out) then Some (py_int (strip out)) else None
    end.
Proof.
  unfold get_video_bitrate, try_except, bind, subprocess_run, ret.
  destruct (run E _ (files w)) as [[e|code out] fs]; reflexivity.
Qed.

Lemma transcode_command_bitrate (x d : Q) (b : option Z) :
  followed_by "-b:v" (str_bitrate b)
    (transcode_command x input_video input_audio b d output_video) = true /\
  has_arg "-b:v"
    (transcode_command x input_video input_audio b d output_video) = true.
Proof.
  split; [|reflexivity].
  cbn. rewrite String.eqb_refl. reflexivity.
Qed.

(** C8 (the code passes the text [None]).  The bitrate query never
    stops a run: it returns no bitrate when the query cannot be run or
    prints no number, and a run that made the query goes on to the
    transcode.  But the command always has the [-b:v] parameter,
    followed by [str(bitrate)]: with no bitrate that is the text
    [None], not an absent parameter. *)
Theorem unavailable_bitrate_passed_as_None
    (fs0 : list path) (wf : world) (o : outcome unit) :
  process_video E input_video input_audio output_video
    {| files := fs0; trace := [] |} = (wf, o) ->
  (forall w, snd (get_video_bitrate E input_video w) =
             Returned
               match fst (run E (bitrate_query input_video) (files w)) with
               | RunRaised _ => None
               | Completed _ out =>
                   if isdigit (strip out) then Some (py_int (strip out))
                   else None
               end) /\
  (In GetVideoBitrate (trace wf) ->
   exists cmd, In (Transcode cmd) (trace wf)) /\
  (forall cmd, In (Transcode cmd) (trace wf) ->
     exists w4 w5 b,
       get_video_bitrate E input_video w4 = (w5, Returned b) /\
       followed_by "-b:v" (str_bitrate b) cmd = true /\
       has_arg "-b:v" cmd = true /\
       (b = None -> followed_by "-b:v" "None" cmd = true)).
Proof.
  intros Hrun. apply process_video_run in Hrun.
  split; [exact get_video_bitrate_result|].
  destruct Hrun as [wf T|wf o _ T|wf o _ T|wf o oq _ _ _ T
                   |wf o d x b fs v y w4 w5 _ _ _ Hb _ T
                   |wf d x b fs v y w4 w5 _ _ _ Hb T _];
    rewrite T; (split; [intros Hin|intros cmd Hin]); in_trace Hin.
  - eexists. cbn. auto 10.
  - injection Hin as <-.
    destruct (transcode_command_bitrate x d b) as [H1 H2].
    exists w4, w5, b. repeat split; try assumption.
    intros ->. exact H1.
  - eexists. cbn. auto 10.
  - injection Hin as <-.
    destruct (transcode_command_bitrate x d b) as [H1 H2].
    exists w4, w5, b. repeat split; try assumption.
    intros ->. exact H1.
Qed.

End Runs.

Section SampleRuns.
Local Open Scope Q_scope.

Lemma low_confidence_never_transcoded_witness :
  snd (sample_run "2500000" true [0; 0; 4] [4]) =
    Exited 1 no_alignment_message /\
  exit_code (snd (sample_run "2500000" true [0; 0; 4] [4])) = 1%Z.
Proof.
  destruct (low_confidence_never_transcoded
              (sample_env "2500000" true [0; 0; 4] [4])
              sample_video sample_audio sample_output
              (files start_world)
              (fst (sample_run "2500000" true [0; 0; 4] [4]))
              (snd (sample_run "2500000" true [0; 0; 4] [4])))
    as [_ H].
  { vm_compute. reflexivity. }
  destruct (H [0; 0; 4] [4] 16) as [_ H'].
  - intros fs. reflexivity.
  - intros fs. reflexivity.
  - vm_compute. reflexivity.
  - reflexivity.
  - destruct H' as [H1 [H2 _]].
    + vm_compute. auto.
    + split; [exact H1|exact H2].
Defined.

(** C3 as stated fails at the threshold itself: a confidence of
    exactly 1000 does not exceed the threshold, and the offset is
    returned and transcoded all the same. *)
Lemma confidence_at_threshold_accepted :
  confidence [1000] [1] = Some threshold /\
  find_audio_offset [1000] [1] = Returned 0 /\
  snd (sample_run "2500000" true [1000] [1]) = Returned tt.
Proof. vm_compute. repeat split. Qed.

Lemma calls_in_source_order_witness :
  exists cmd n,
    trace (fst (sample_run "2500000" true [0; 0; 40] [40])) =
      firstn n (complete_run cmd) /\
    (1 <= n <= 7)%nat /\
    (snd (sample_run "2500000" true [0; 0; 40] [40]) = Returned tt <->
     n = 7%nat).
Proof.
  apply (calls_in_source_order
           (sample_env "2500000" true [0; 0; 40] [40])
           sample_video sample_audio sample_output (files start_world)).
  vm_compute. reflexivity.
Defined.

(** C7 as stated fails: in a complete run the duration query comes
    before the extraction and the estimation, not after them. *)
Lemma duration_probed_before_extraction :
  snd (sample_run "2500000" true [0; 0; 40] [40]) = Returned tt /\
  firstn 4 (trace (fst (sample_run "2500000" true [0; 0; 40] [40]))) =
    [CheckFfmpeg; GetAudioDuration; ExtractAudio; FindAudioOffset] /\
  in_design_order
    (trace (fst (sample_run "2500000" true [0; 0; 40] [40]))) = false.
Proof. vm_compute. repeat split. Qed.

Lemma unavailable_bitrate_passed_as_None_witness :
  snd (get_video_bitrate (sample_env "N/A" true [0; 0; 40] [40])
         sample_video start_world) = Returned None /\
  exists cmd,
    In (Transcode cmd) (trace (fst (sample_run "N/A" true [0; 0; 40] [40]))) /\
    followed_by "-b:v" "None" cmd = true.
Proof.
  destruct (unavailable_bitrate_passed_as_None
              (sample_env "N/A" true [0; 0; 40] [40])
              sample_video sample_audio sample_output (files start_world)
              (fst (sample_run "N/A" true [0; 0; 40] [40]))
              (snd (sample_run "N/A" true [0; 0; 40] [40])))
    as [H1 [H2 H3]].
  { vm_compute. reflexivity. }
  split; [rewrite H1; reflexivity|].
  destruct H2 as [cmd Hcmd]; [vm_compute; auto 10|].
  exists cmd. split; [exact Hcmd|].
  destruct (H3 cmd Hcmd) as [w4 [w5 [b [Hb [_ [_ Hnone]]]]]].
  apply Hnone.
  pose proof (H1 w4) as Hr. rewrite Hb in Hr. cbn [snd] in Hr.
  injection Hr as ->. reflexivity.
Defined.

End SampleRuns.

(* ================================================================= *)
(** * Part V.  Further properties of the estimator                     *)
(* ================================================================= *)

Section Estimator.
Local Open Scope Q_scope.

(** ** What [np.argmax] returns *)





(** ** Scaled signals *)






Lemma correlation_nil_inv (v p : signal) :
  correlation v p = [] -> v = [] \/ p = [].
Proof.
  intros H. destruct v as [|x v]; [left; reflexivity|].
  destruct p as [|y p]; [right; reflexivity|].
  apply (f_equal (@length Q)) in H.
  rewrite correlation_length in H by discriminate. simpl in H. lia.
Qed.







(** ** A delayed video *)






(** ** Bounds on the confidence *)

(** Cauchy-Schwarz for the dot product over the common length. *)
Lemma dot_sq_le (a b : signal) :
  dot a b * dot a b <= energy a * energy b.
Proof.
  unfold energy. revert b.
  induction a as [|x a IH]; intros [|y b]; cbn [dot]; try lra.
  specialize (IH b).
  pose proof (energy_nonneg a) as HA. pose proof (energy_nonneg b) as HB.
  unfold energy in HA, HB.
  set (D := dot a b) in *. set (A := dot a a) in *. set (B := dot b b) in *.
  assert (Hc : 2 * (x * y * D) <= x * x * B + y * y * A).
  { destruct (Qlt_le_dec 0 B) as [HB0|HB0].
    - pose proof (Qsqr_nonneg (x * B - y * D)) as H1.
      assert (H2 : 0 <= y * y * (A * B - D * D)).
      { apply Qmult_le_0_compat; [apply Qsqr_nonneg|lra]. }
      assert (H3 : B * (x * x * B + y * y * A - 2 * (x * y * D)) ==
                   (x * B - y * D) * (x * B - y * D) +
                   y * y * (A * B - D * D)) by ring.
      destruct (Qlt_le_dec (x * x * B + y * y * A - 2 * (x * y * D)) 0)
        as [Hneg|Hpos]; [|lra].
      pose proof (Qmult_lt_compat_r _ _ B HB0 Hneg) as H4. lra.
    - assert (HB1 : B == 0) by lra.
      assert (HD : D * D <= 0) by (rewrite HB1 in IH; lra).
      assert (HD0 : D == 0).
      { destruct (Qeq_dec D 0) as [E0|E0]; [exact E0|].
        assert (0 < D * D).
        { destruct (Q_dec D 0) as [[H|H]|H]; [nra|nra|contradiction]. }
        lra. }
      rewrite HB1, HD0. pose proof (Qsqr_nonneg y).
      assert (0 <= y * y * A) by (apply Qmult_le_0_compat; assumption).
      lra. }
  assert (Hexp : (x * y + D) * (x * y + D) ==
                 x * y * (x * y) + 2 * (x * y * D) + D * D) by ring.
  assert (Hexp2 : (x * x + A) * (y * y + B) ==
                  x * y * (x * y) + (x * x * B + y * y * A) + A * B) by ring.
  rewrite Hexp, Hexp2. lra.
Qed.

Lemma conv_rev_sq_le (v p : signal) (n : nat) :
  p <> [] ->
  conv_at v (rev p) n * conv_at v (rev p) n <= energy v * energy p.
Proof.
  intros Hp. pose proof (length_pos p Hp) as Hl.
  pose proof (energy_nonneg v) as Hv0. pose proof (energy_nonneg p) as Hp0.
  destruct (Nat.le_gt_cases n (length p - 1)) as [Hn|Hn].
  - replace n with (length p - 1 - (length p - 1 - n))%nat by lia.
    rewrite conv_rev_low by lia.
    pose proof (dot_sq_le v (skipn (length p - 1 - n) p)) as H1.
    pose proof (energy_skipn (length p - 1 - n) p) as H2.
    pose proof (energy_nonneg (skipn (length p - 1 - n) p)) as H3.
    nra.
  - replace n with (length p - 1 + (n - (length p - 1)))%nat by lia.
    rewrite conv_rev_high by lia.
    pose proof (dot_sq_le (skipn (n - (length p - 1)) v) p) as H1.
    pose proof (energy_skipn (n - (length p - 1)) v) as H2.
    pose proof (energy_nonneg (skipn (n - (length p - 1)) v)) as H3.
    nra.
Qed.

(** The confidence is one of the correlation values. *)
Lemma confidence_value (video_y wav_y : signal) (c : Q) :
  confidence video_y wav_y = Some c ->
  video_y <> [] /\ truncate_probe wav_y <> [] /\
  exists n, c = conv_at video_y (rev (truncate_probe wav_y)) n.
Proof.
  unfold confidence. intros Hc.
  set (p := truncate_probe wav_y) in *.
  assert (Hne : correlation video_y p <> [])
    by (intros E0; rewrite E0 in Hc; discriminate).
  assert (Hv : video_y <> []).
  { intros ->. apply Hne, correlation_empty. left. reflexivity. }
  assert (Hp : p <> []).
  { intros E0. apply Hne, correlation_empty. right. exact E0. }
  split; [exact Hv|]. split; [exact Hp|].
  destruct (amax_spec _ _ Hc) as [Hin _].
  rewrite correlation_nonempty in Hin by assumption.
  apply in_map_iff in Hin. destruct Hin as [n [<- _]].
  exists n. reflexivity.
Qed.

Lemma confidence_sq_le (video_y wav_y : signal) (c : Q) :
  confidence video_y wav_y = Some c ->
  c * c <= energy video_y * energy (truncate_probe wav_y).
Proof.
  intros Hc. destruct (confidence_value _ _ _ Hc) as [_ [Hp [n ->]]].
  apply conv_rev_sq_le. exact Hp.
Qed.


Lemma energy_silent (a : signal) : silent a -> energy a == 0.
Proof.
  unfold silent, energy. induction 1 as [|x a Hx _ IH]; cbn [dot].
  - reflexivity.
  - rewrite IH, Hx. ring.
Qed.

(** X4.  Silence never aligns: when the video or the window of the
    external audio is all zeros (and neither is empty), the function
    exits with code 1. *)
Theorem silent_signal_exits (video_y wav_y : signal) :
  video_y <> [] -> truncate_probe wav_y <> [] ->
  silent video_y \/ silent (truncate_probe wav_y) ->
  find_audio_offset video_y wav_y = Exited 1 no_alignment_message.
Proof.
  intros Hv Hp Hs.
  assert (He : energy video_y * energy (truncate_probe wav_y) == 0).
  { destruct Hs as [Hs|Hs]; rewrite (energy_silent _ Hs); ring. }
  destruct (amax_some (correlation video_y (truncate_probe wav_y)))
    as [c Hc].
  { intros E0. apply correlation_nil_inv in E0. tauto. }
  apply (low_confidence_exits _ _ c Hc).
  pose proof (confidence_sq_le _ _ _ Hc) as H. unfold threshold. nra.
Qed.

Lemma silent_signal_exits_witness :
  find_audio_offset [0; 0; 0] [500; -300] = Exited 1 no_alignment_message.
Proof.
  apply silent_signal_exits.
  - discriminate.
  - discriminate.
  - left. repeat constructor.
Defined.

Lemma samples_cons (x : Q) (a : signal) : samples (x :: a) == samples a + 1.
Proof.
  unfold samples. cbn [length]. rewrite Nat2Z.inj_succ. unfold Z.succ.
  rewrite inject_Z_plus. reflexivity.
Qed.

Lemma samples_nonneg (a : signal) : 0 <= samples a.
Proof. unfold samples. change 0 with (inject_Z 0). rewrite <- Zle_Qle. lia. Qed.

Lemma normalised_product (x y : Q) :
  -1 <= x <= 1 -> -1 <= y <= 1 -> x * y <= 1.
Proof.
  intros [Hx1 Hx2] [Hy1 Hy2].
  assert (H1 : 0 <= (1 - x) * (1 + y)) by (apply Qmult_le_0_compat; lra).
  assert (H2 : 0 <= (1 + x) * (1 - y)) by (apply Qmult_le_0_compat; lra).
  assert (E1 : (1 - x) * (1 + y) + (1 + x) * (1 - y) == 2 - 2 * (x * y))
    by ring.
  lra.
Qed.

(** With samples in [[-1, 1]] a dot product is at most the number of
    samples of either signal. *)
Lemma dot_le_samples (a b : signal) :
  normalised a -> normalised b ->
  dot a b <= samples a /\ dot a b <= samples b.
Proof.
  unfold normalised. intros Ha. revert b.
  induction Ha as [|x a Hx Ha IH]; intros b Hb.
  - cbn [dot]. split; apply samples_nonneg.
  - destruct Hb as [|y b Hy Hb]; cbn [dot].
    + split; apply samples_nonneg.
    + destruct (IH b Hb) as [H1 H2].
      pose proof (normalised_product x y Hx Hy).
      rewrite !samples_cons. lra.
Qed.

Lemma normalised_skipn (n : nat) (a : signal) :
  normalised a -> normalised (skipn n a).
Proof.
  unfold normalised. revert a. induction n as [|n IH]; intros a Ha;
    [exact Ha|].
  destruct Ha as [|x a _ Ha]; [constructor|]. apply IH, Ha.
Qed.

Lemma samples_skipn (n : nat) (a : signal) : samples (skipn n a) <= samples a.
Proof. unfold samples. rewrite <- Zle_Qle, length_skipn. lia. Qed.

(** X5.  With both signals in [[-1, 1]] the confidence is at most the
    number of samples of the shorter one; so no offset is returned
    unless the video and the window of the external audio each have
    at least 1000 samples. *)
Theorem normalised_confidence_bound (video_y wav_y : signal) :
  normalised video_y -> normalised (truncate_probe wav_y) ->
  (forall c, confidence video_y wav_y = Some c ->
             c <= samples video_y /\ c <= samples (truncate_probe wav_y)) /\
  (forall x, find_audio_offset video_y wav_y = Returned x ->
             (1000 <= length video_y)%nat /\
             (1000 <= length (truncate_probe wav_y))%nat).
Proof.
  intros Nv Np.
  assert (H : forall c, confidence video_y wav_y = Some c ->
              c <= samples video_y /\ c <= samples (truncate_probe wav_y)).
  { intros c Hc. destruct (confidence_value _ _ _ Hc) as [_ [Hp [n ->]]].
    set (p := truncate_probe wav_y) in *.
    pose proof (length_pos p Hp) as Hl.
    destruct (Nat.le_gt_cases n (length p - 1)) as [Hn|Hn].
    - replace n with (length p - 1 - (length p - 1 - n))%nat by lia.
      rewrite conv_rev_low by lia.
      destruct (dot_le_samples video_y (skipn (length p - 1 - n) p) Nv
                  (normalised_skipn _ _ Np)) as [H1 H2].
      pose proof (samples_skipn (length p - 1 - n) p). split; lra.
    - replace n with (length p - 1 + (n - (length p - 1)))%nat by lia.
      rewrite conv_rev_high by lia.
      destruct (dot_le_samples (skipn (n - (length p - 1)) video_y) p
                  (normalised_skipn _ _ Nv) Np) as [H1 H2].
      pose proof (samples_skipn (n - (length p - 1)) video_y). split; lra. }
  split; [exact H|].
  intros x Hr. destruct (returned_confidence _ _ _ Hr) as [c [Hc Hge]].
  destruct (H c Hc) as [H1 H2]. unfold threshold in Hge.
  assert (G : forall a : signal, 1000 <= samples a -> (1000 <= length a)%nat).
  { intros a Ha. unfold samples in Ha. change 1000 with (inject_Z 1000) in Ha.
    rewrite <- Zle_Qle in Ha. lia. }
  split; apply G; lra.
Qed.

Lemma normalised_confidence_bound_witness :
  exists c, confidence [1; -1; 1 # 2] [1; -1] = Some c /\
            c <= samples [1; -1; 1 # 2] /\
            c <= samples (truncate_probe [1; -1]).
Proof.
  destruct (normalised_confidence_bound [1; -1; 1 # 2] [1; -1]) as [H _].
  - repeat constructor; discriminate.
  - repeat constructor; discriminate.
  - eexists. split; [vm_compute; reflexivity|].
    apply H. vm_compute. reflexivity.
Defined.

(** X6.  A returned offset is a whole number [n] of sample periods,
    where [n] is at most [len(video_y) - 2] and is [0] when the video
    has fewer than two samples; the lag it comes from is at least
    [- len(wav_y)]. *)
Theorem offset_on_sample_grid (video_y wav_y : signal) (x : Q) :
  find_audio_offset video_y wav_y = Returned x ->
  (exists n : Z,
      x == inject_Z n / inject_Z sr /\
      (0 <= n)%Z /\
      (n <= Z.max 0 (Z.of_nat (length video_y) - 2))%Z) /\
  (exists best,
      best_offset video_y (truncate_probe wav_y) = Some best /\
      (- Z.of_nat (length (truncate_probe wav_y)) <= best)%Z /\
      (best <= Z.of_nat (length video_y) - 2)%Z).
Proof.
  intros Hr.
  destruct (find_audio_offset_cases video_y wav_y)
    as [[_ H]|[am [c [Ham [_ [[_ H]|[_ H]]]]]]];
    rewrite H in Hr; try discriminate.
  injection Hr as <-.
  set (p := truncate_probe wav_y) in *.
  pose proof (argmax_bound _ _ Ham) as Hb.
  assert (Hne : correlation video_y p <> [])
    by (intros E0; rewrite E0 in Ham; discriminate).
  assert (Hv : video_y <> []).
  { intros ->. apply Hne, correlation_empty. left. reflexivity. }
  assert (Hp : p <> []).
  { intros E0. apply Hne, correlation_empty. right. exact E0. }
  rewrite correlation_length in Hb by assumption.
  pose proof (length_pos _ Hv). pose proof (length_pos _ Hp).
  split.
  - destruct (Z_lt_le_dec (Z.of_nat am - Z.of_nat (length p)) 0) as [Hneg|Hpos].
    + exists 0%Z. split; [|lia].
      rewrite py_max_clamps; [reflexivity|].
      rewrite <- offset_seconds_0. apply offset_seconds_lt. exact Hneg.
    + exists (Z.of_nat am - Z.of_nat (length p))%Z. split; [|lia].
      rewrite py_max_keeps; [reflexivity|].
      rewrite <- offset_seconds_0. apply offset_seconds_le. exact Hpos.
  - eexists. split; [unfold best_offset; rewrite Ham; reflexivity|]. lia.
Qed.

Lemma offset_on_sample_grid_witness :
  (exists n : Z,
      0 == inject_Z n / inject_Z sr /\
      (0 <= n)%Z /\
      (n <= Z.max 0 (Z.of_nat (length [1000]%Q) - 2))%Z) /\
  (exists best,
      best_offset [1000] (truncate_probe [1]) = Some best /\
      (- Z.of_nat (length (truncate_probe [1]%Q)) <= best)%Z /\
      (best <= Z.of_nat (length [1000]%Q) - 2)%Z).
Proof.
  apply (offset_on_sample_grid [1000] [1] 0).
  vm_compute. reflexivity.
Defined.

End Estimator.

(* ================================================================= *)
(** * Part VI.  The text of the bitrate                                *)
(* ================================================================= *)

Section Text.
Local Open Scope string_scope.

Lemma digit_not_space (c : ascii) : is_digit c = true -> is_space c = false.
Proof.
  destruct c as [[] [] [] [] [] [] [] []]; vm_compute; congruence.
Qed.

Lemma lstrip_spaces (ws t : string) :
  all_space ws = true -> lstrip (ws ++ t) = lstrip t.
Proof.
  induction ws as [|c ws IH]; cbn [all_space append lstrip]; [reflexivity|].
  intros H. apply andb_prop in H. destruct H as [Hc Hws].
  rewrite Hc. apply IH, Hws.
Qed.

Lemma rstrip_all_space (ws : string) : all_space ws = true -> rstrip ws = "".
Proof.
  induction ws as [|c ws IH]; cbn [all_space rstrip]; [reflexivity|].
  intros H. apply andb_prop in H. destruct H as [Hc Hws].
  rewrite (IH Hws), Hc. reflexivity.
Qed.

Lemma rstrip_spaces (s ws : string) :
  all_space ws = true -> rstrip (s ++ ws) = rstrip s.
Proof.
  intros Hws. induction s as [|c s IH]; cbn [append rstrip].
  - apply rstrip_all_space, Hws.
  - rewrite IH. reflexivity.
Qed.

Lemma rstrip_digits (s : string) : all_digits s = true -> rstrip s = s.
Proof.
  induction s as [|c s IH]; cbn [all_digits rstrip]; [reflexivity|].
  intros H. apply andb_prop in H. destruct H as [Hc Hs].
  rewrite (IH Hs). destruct s; [|reflexivity].
  rewrite (digit_not_space c Hc). reflexivity.
Qed.

(** [strip] removes the whitespace around a number and nothing of it. *)
Lemma strip_digits (ws1 s ws2 : string) :
  all_space ws1 = true -> all_space ws2 = true -> isdigit s = true ->
  strip (ws1 ++ s ++ ws2) = s.
Proof.
  intros H1 H2 Hs. unfold strip. rewrite lstrip_spaces by exact H1.
  destruct s as [|c s]; [discriminate|].
  cbn [isdigit all_digits] in Hs.
  pose proof Hs as Hs'. apply andb_prop in Hs'. destruct Hs' as [Hc _].
  cbn [append lstrip]. rewrite (digit_not_space c Hc).
  change (String c (s ++ ws2)) with (String c s ++ ws2).
  rewrite rstrip_spaces by exact H2. apply rstrip_digits. exact Hs.
Qed.

Lemma int_acc_nonneg (s : string) (acc : Z) :
  (0 <= acc)%Z -> (0 <= int_acc s acc)%Z.
Proof.
  revert acc. induction s as [|c s IH]; intros acc H; cbn [int_acc];
    [exact H|].
  apply IH. lia.
Qed.

Lemma uint_digits (d : Decimal.uint) :
  all_digits (NilEmpty.string_of_uint d) = true.
Proof. induction d; cbn [NilEmpty.string_of_uint all_digits]; auto. Qed.

Lemma int_acc_uint_pos (d : Decimal.uint) (acc : positive) :
  int_acc (NilEmpty.string_of_uint d) (Zpos acc) =
  Zpos (Pos.of_uint_acc d acc).
Proof.
  revert acc.
  induction d; intros acc; cbn [NilEmpty.string_of_uint int_acc Pos.of_uint_acc];
    [reflexivity|..];
    rewrite <- IHd; f_equal; vm_compute nat_of_ascii; lia.
Qed.

Lemma int_acc_uint (d : Decimal.uint) :
  int_acc (NilEmpty.string_of_uint d) 0 = Z.of_N (Pos.of_uint d).
Proof.
  induction d; cbn [NilEmpty.string_of_uint int_acc Pos.of_uint];
    [reflexivity|exact IHd|..]; apply int_acc_uint_pos.
Qed.

Lemma py_int_uint (d : Decimal.uint) :
  py_int (NilZero.string_of_uint d) = Z.of_N (Pos.of_uint d).
Proof.
  unfold py_int. destruct d; try apply int_acc_uint. reflexivity.
Qed.

Lemma isdigit_uint (d : Decimal.uint) :
  isdigit (NilZero.string_of_uint d) = true.
Proof.
  destruct d; try reflexivity;
    apply (uint_digits (_ d)) || (cbn; apply uint_digits).
Qed.

(** [str] and [int] on a bitrate: the text of a number that is not
    negative is digits only, and reads back as that number. *)
Lemma str_bitrate_roundtrip (n : Z) :
  (0 <= n)%Z ->
  isdigit (str_bitrate (Some n)) = true /\
  py_int (str_bitrate (Some n)) = n.
Proof.
  intros Hn. unfold str_bitrate.
  destruct n as [|p|p]; [split; reflexivity| |lia].
  cbn [Z.to_int NilZero.string_of_int]. split.
  - apply isdigit_uint.
  - rewrite py_int_uint, Unsigned.of_to. reflexivity.
Qed.

Lemma bitrate_reply_nonneg (r : run_result) (n : Z) :
  bitrate_reply r = Some n -> (0 <= n)%Z.
Proof.
  destruct r as [e|code out]; cbn [bitrate_reply]; [discriminate|].
  destruct (isdigit (strip out)); [|discriminate].
  intros [= <-]. apply int_acc_nonneg. lia.
Qed.

(** The text of the bitrate of a reply is [None] or digits. *)
Lemma str_bitrate_reply (r : run_result) :
  str_bitrate (bitrate_reply r) = "None" \/
  isdigit (str_bitrate (bitrate_reply r)) = true.
Proof.
  destruct (bitrate_reply r) as [n|] eqn:Hr; [right|left; reflexivity].
  apply str_bitrate_roundtrip. exact (bitrate_reply_nonneg r n Hr).
Qed.

(** That text is never one of the options of the command line. *)
Lemma bitrate_text_not_option (r : run_result) (rest : string) :
  String.eqb (str_bitrate (bitrate_reply r)) (String "-" rest) = false.
Proof.
  destruct (str_bitrate_reply r) as [H|H].
  - rewrite H. reflexivity.
  - destruct (str_bitrate (bitrate_reply r)) as [|c s]; [discriminate|].
    cbn [isdigit all_digits] in H. apply andb_prop in H. destruct H as [Hc _].
    cbn [String.eqb]. destruct (Ascii.eqb_spec c "-") as [->|_];
      [discriminate|reflexivity].
Qed.

(** What follows the options of the final command. *)
Lemma transcode_command_args (x d : Q) (iv ia ov : path) (r : run_result) :
  let cmd := transcode_command x iv ia (bitrate_reply r) d ov in
  arg_after "-ss" cmd = Some (FloatStr x) /\
  arg_after "-t" cmd = Some (FloatStr d) /\
  arg_after "-vf" cmd = Some (FadeStr (d - 1)%Q) /\
  arg_after "-i" cmd = Some (PathStr iv) /\
  arg_after "-b:v" cmd = Some (Str (str_bitrate (bitrate_reply r))) /\
  last cmd (Str "") = PathStr ov.
Proof.
  cbv zeta. unfold transcode_command.
  repeat split; try reflexivity;
    cbn [arg_after String.eqb Ascii.eqb Bool.eqb andb hd_error];
    rewrite bitrate_text_not_option; reflexivity.
Qed.

End Text.

(* ================================================================= *)
(** * Part VII.  Further properties of the pipeline                    *)
(* ================================================================= *)

Section Tools.
Local Open Scope Q_scope.

Variable E : env.

(** ** What each call to a tool gives *)

Lemma subprocess_run_result (cmd : command) (check : bool) (w : world) :
  subprocess_run E cmd check w =
  (after_run E cmd w,
   match fst (run E cmd (files w)) with
   | RunRaised e => Raised e
   | Completed code out =>
       if check && negb (code =? 0)%Z then Raised CalledProcessError
       else Returned out
   end).
Proof.
  unfold subprocess_run, after_run.
  destruct (run E cmd (files w)) as [[e|code out] fs]; cbn [fst snd];
    [reflexivity|].
  destruct (check && negb (code =? 0)%Z); reflexivity.
Qed.

Lemma get_audio_duration_result (audio_file : path) (w : world) :
  get_audio_duration E audio_file w =
  (after_run E (duration_query audio_file) w,
   match fst (run E (duration_query audio_file) (files w)) with
   | RunRaised e =>
       if is_CalledProcessError e
       then Exited 1 "Error: Could not determine audio duration."
       else Raised e
   | Completed code out =>
       if (code =? 0)%Z
       then match py_float E (strip out) with
            | Some d => Returned d
            | None => Raised (ValueError "could not convert string to float")
            end
       else Exited 1 "Error: Could not determine audio duration."
   end).
Proof.
  unfold get_audio_duration, try_except, bind.
  rewrite subprocess_run_result.
  destruct (fst (run E (duration_query audio_file) (files w)))
    as [e|code out].
  - destruct e; reflexivity.
  - cbn [andb]. destruct (code =? 0)%Z; cbn [negb]; [|reflexivity].
    destruct (py_float E (strip out)); reflexivity.
Qed.

Lemma extract_audio_result (input_file output_wav : path) (w : world) :
  extract_audio E input_file output_wav w =
  (after_run E (extract_command input_file output_wav) w,
   match fst (run E (extract_command input_file output_wav) (files w)) with
   | RunRaised e => Raised e
   | Completed code out =>
       if (code =? 0)%Z then Returned tt else Raised CalledProcessError
   end).
Proof.
  unfold extract_audio, bind. rewrite subprocess_run_result.
  destruct (fst (run E (extract_command input_file output_wav) (files w)))
    as [e|code out]; [reflexivity|].
  cbn [andb]. destruct (code =? 0)%Z; reflexivity.
Qed.

Lemma get_video_bitrate_full (video_file : path) (w : world) :
  get_video_bitrate E video_file w =
  (after_run E (bitrate_query video_file) w,
   Returned (bitrate_reply
               (fst (run E (bitrate_query video_file) (files w))))).
Proof.
  unfold get_video_bitrate, try_except, bind. rewrite subprocess_run_result.
  destruct (fst (run E (bitrate_query video_file) (files w)));
    reflexivity.
Qed.

Variables input_video input_audio output_video : path.

(** ** Runs that stop early *)

Lemma run_without_ffmpeg (w0 : world) :
  which E "ffmpeg" = false ->
  process_video E input_video input_audio output_video w0 =
  ({| files := files w0; trace := trace w0 ++ [CheckFfmpeg] |},
   Exited 1 "Error: FFmpeg is not installed or not in PATH.").
Proof.
  intros W. unfold process_video. rewrite bind_enter. unfold bind at 1.
  unfold check_ffmpeg. rewrite W. reflexivity.
Qed.

Lemma run_to_duration (w0 : world) :
  which E "ffmpeg" = true ->
  process_video E input_video input_audio output_video w0 =
  bind (get_audio_duration E input_audio)
    (fun duration =>
       enter ExtractAudio ;;;
       extract_audio E input_video (temp_audio input_video) ;;;
       enter FindAudioOffset ;;;
       offset_seconds <-
         find_audio_offset_io E (temp_audio input_video) input_audio ;;
       enter GetVideoBitrate ;;;
       bitrate <- get_video_bitrate E input_video ;;
       enter (Transcode
                (transcode_command offset_seconds input_video input_audio
                   bitrate duration output_video)) ;;;
       subprocess_run E
         (transcode_command offset_seconds input_video input_audio
            bitrate duration output_video) true ;;;
       enter Cleanup ;;;
       unlink_missing_ok (temp_audio input_video))
    {| files := files w0;
       trace := trace w0 ++ [CheckFfmpeg; GetAudioDuration] |}.
Proof.
  intros W. unfold process_video. rewrite bind_enter. unfold bind at 1.
  unfold check_ffmpeg. rewrite W. cbn [ret]. rewrite bind_enter.
  cbn [files trace]. rewrite <- app_assoc. reflexivity.
Qed.

(** X7.  When [ffmpeg] is not on the PATH the run exits with code 1 and
    its message before anything else is called: the files are
    untouched and the only call is the check. *)
Theorem missing_ffmpeg_stops_run (w0 : world) :
  which E "ffmpeg" = false ->
  process_video E input_video input_audio output_video w0 =
    ({| files := files w0; trace := trace w0 ++ [CheckFfmpeg] |},
     Exited 1 "Error: FFmpeg is not installed or not in PATH.") /\
  exit_code (snd (process_video E input_video input_audio output_video w0))
    = 1%Z.
Proof.
  intros W. rewrite (run_without_ffmpeg w0 W). split; reflexivity.
Qed.

(** X8.  How the duration query can stop a run.  With [ffmpeg] found: a
    query that ends with a non-zero return code gives exit code 1 and
    the duration message; a query that succeeds with text [float]
    cannot read ends the run in an uncaught [ValueError]; a query that
    cannot be started (only [ffmpeg] was checked for) ends it in that
    exception.  In each case the run stops after the query, before
    the extraction. *)
Theorem failed_duration_query_stops_run (w0 : world) :
  which E "ffmpeg" = true ->
  (forall code out fs,
      run E (duration_query input_audio) (files w0) = (Completed code out, fs) ->
      code <> 0%Z ->
      process_video E input_video input_audio output_video w0 =
      ({| files := fs;
          trace := trace w0 ++ [CheckFfmpeg; GetAudioDuration] |},
       Exited 1 "Error: Could not determine audio duration.")) /\
  (forall out fs,
      run E (duration_query input_audio) (files w0) = (Completed 0 out, fs) ->
      py_float E (strip out) = None ->
      process_video E input_video input_audio output_video w0 =
      ({| files := fs;
          trace := trace w0 ++ [CheckFfmpeg; GetAudioDuration] |},
       Raised (ValueError "could not convert string to float"))) /\
  (forall e fs,
      run E (duration_query input_audio) (files w0) = (RunRaised e, fs) ->
      is_CalledProcessError e = false ->
      process_video E input_video input_audio output_video w0 =
      ({| files := fs;
          trace := trace w0 ++ [CheckFfmpeg; GetAudioDuration] |},
       Raised e)).
Proof.
  intros W.
  split; [|split]; intros; rewrite (run_to_duration w0 W); unfold bind at 1;
    rewrite get_audio_duration_result; unfold after_run; cbn [files trace];
    match goal with R : run _ _ _ = _ |- _ => rewrite R end; cbn [fst snd].
  - destruct (Z.eqb_spec code 0); [contradiction|reflexivity].
  - cbn [Z.eqb]. match goal with F : py_float _ _ = _ |- _ => rewrite F end.
    reflexivity.
  - match goal with F : is_CalledProcessError _ = _ |- _ => rewrite F end.
    reflexivity.
Qed.

(** ** Runs that reach the final pass *)

Lemma run_to_extract (w0 : world) (out1 : string) (fs1 : list path) (d : Q) :
  which E "ffmpeg" = true ->
  run E (duration_query input_audio) (files w0) = (Completed 0 out1, fs1) ->
  py_float E (strip out1) = Some d ->
  process_video E input_video input_audio output_video w0 =
  bind (extract_audio E input_video (temp_audio input_video))
    (fun _ =>
       enter FindAudioOffset ;;;
       offset_seconds <-
         find_audio_offset_io E (temp_audio input_video) input_audio ;;
       enter GetVideoBitrate ;;;
       bitrate <- get_video_bitrate E input_video ;;
       enter (Transcode
                (transcode_command offset_seconds input_video input_audio
                   bitrate d output_video)) ;;;
       subprocess_run E
         (transcode_command offset_seconds input_video input_audio
            bitrate d output_video) true ;;;
       enter Cleanup ;;;
       unlink_missing_ok (temp_audio input_video))
    {| files := fs1;
       trace := trace w0 ++ [CheckFfmpeg; GetAudioDuration; ExtractAudio] |}.
Proof.
  intros W R1 F1. rewrite (run_to_duration w0 W). unfold bind at 1.
  rewrite get_audio_duration_result. unfold after_run. cbn [files trace].
  rewrite R1. cbn [fst snd Z.eqb]. rewrite F1. rewrite bind_enter.
  cbn [files trace]. rewrite <- app_assoc. reflexivity.
Qed.

Lemma run_to_transcode (w0 : world) (d x : Q) (fs2 : list path) :
  estimated E input_video input_audio (files w0) d x fs2 ->
  process_video E input_video input_audio output_video w0 =
  subprocess_run E
    (request E input_video input_audio output_video d x fs2) true ;;;
  enter Cleanup ;;;
  unlink_missing_ok (temp_audio input_video)
  @@ {| files := snd (run E (bitrate_query input_video) fs2);
        trace := trace w0 ++ calls_before_transcode ++
                 [Transcode
                    (request E input_video input_audio output_video d x fs2)]
     |}.
Proof.
  intros [W [out1 [fs1 [out2 [v [y [R1 [F1 [R2 [L1 [L2 Est]]]]]]]]]]].
  rewrite (run_to_extract w0 out1 fs1 d W R1 F1). unfold bind at 1.
  rewrite extract_audio_result. unfold after_run. cbn [files trace].
  rewrite R2. cbn [fst snd Z.eqb].
  rewrite bind_enter. unfold bind at 1. unfold find_audio_offset_io.
  cbn [files trace]. rewrite L1, L2, Est.
  rewrite bind_enter. unfold bind at 1. rewrite get_video_bitrate_full.
  unfold after_run. cbn [files trace]. rewrite bind_enter.
  cbn [files trace]. unfold request, calls_before_transcode.
  rewrite <- !app_assoc. reflexivity.
Qed.

(** A run either stops at one of the first four calls, or gets an
    offset from the estimator. *)
Lemma run_inversion (w0 wf : world) (o : outcome unit) :
  process_video E input_video input_audio output_video w0 = (wf, o) ->
  (failed o /\
   exists n, (1 <= n <= 4)%nat /\
             trace wf = trace w0 ++ firstn n calls_before_transcode) \/
  (exists d x fs2, estimated E input_video input_audio (files w0) d x fs2).
Proof.
  intros H.
  destruct (which E "ffmpeg") eqn:W.
  2:{ rewrite (run_without_ffmpeg w0 W) in H. injection H as <- <-.
      left. split; [exact I|]. exists 1%nat. split; [lia|reflexivity]. }
  destruct (run E (duration_query input_audio) (files w0))
    as [r1 fs1] eqn:R1.
  assert (Hstop2 :
    forall o2, failed o2 ->
      process_video E input_video input_audio output_video w0 =
      ({| files := fs1;
          trace := trace w0 ++ [CheckFfmpeg; GetAudioDuration] |}, o2) ->
      (failed o /\
       exists n, (1 <= n <= 4)%nat /\
                 trace wf = trace w0 ++ firstn n calls_before_transcode) \/
      (exists d x fs2, estimated E input_video input_audio (files w0) d x fs2)).
  { intros o2 Hf Heq. rewrite Heq in H. injection H as <- <-.
    left. split; [exact Hf|]. exists 2%nat. split; [lia|reflexivity]. }
  pose proof (run_to_duration w0 W) as H2. unfold bind at 1 in H2.
  rewrite get_audio_duration_result in H2. unfold after_run in H2.
  cbn [files trace] in H2. rewrite R1 in H2. cbn [fst snd] in H2.
  destruct r1 as [e|code out1].
  { destruct (is_CalledProcessError e); eapply Hstop2; try exact H2; exact I. }
  destruct (Z.eqb_spec code 0) as [->|Hc];
    [|eapply Hstop2; try exact H2; exact I].
  destruct (py_float E (strip out1)) as [d|] eqn:F1;
    [|eapply Hstop2; try exact H2; exact I].
  clear H2 Hstop2.
  rewrite (run_to_extract w0 out1 fs1 d W R1 F1) in H. unfold bind at 1 in H.
  rewrite extract_audio_result in H. unfold after_run in H.
  cbn [files trace] in H.
  destruct (run E (extract_command input_video (temp_audio input_video)) fs1)
    as [r2 fs2] eqn:R2.
  cbn [fst snd] in H.
  assert (Hstop3 :
    forall o3 : outcome unit, failed o3 ->
      ({| files := fs2;
          trace := trace w0 ++
                   [CheckFfmpeg; GetAudioDuration; ExtractAudio] |}, o3) =
      (wf, o) ->
      (failed o /\
       exists n, (1 <= n <= 4)%nat /\
                 trace wf = trace w0 ++ firstn n calls_before_transcode) \/
      (exists d x fs2, estimated E input_video input_audio (files w0) d x fs2)).
  { intros o3 Hf Heq. injection Heq as <- <-.
    left. split; [exact Hf|]. exists 3%nat. split; [lia|reflexivity]. }
  destruct r2 as [e|code out2]; [(eapply Hstop3; [|exact H]; exact I)|].
  destruct (Z.eqb_spec code 0) as [->|Hc]; [|(eapply Hstop3; [|exact H]; exact I)].
  clear Hstop3.
  rewrite bind_enter in H. unfold bind at 1 in H.
  unfold find_audio_offset_io in H. cbn [files trace] in H.
  assert (Hstop4 :
    forall o4 : outcome unit, failed o4 ->
      ({| files := fs2;
          trace := (trace w0 ++
                    [CheckFfmpeg; GetAudioDuration; ExtractAudio]) ++
                   [FindAudioOffset] |}, o4) = (wf, o) ->
      (failed o /\
       exists n, (1 <= n <= 4)%nat /\
                 trace wf = trace w0 ++ firstn n calls_before_transcode) \/
      (exists d x fs2, estimated E input_video input_audio (files w0) d x fs2)).
  { intros o4 Hf Heq. injection Heq as <- <-.
    left. split; [exact Hf|]. exists 4%nat. split; [lia|].
    rewrite <- app_assoc. reflexivity. }
  destruct (librosa_load E (temp_audio input_video) fs2) as [v|] eqn:L1;
    [|(eapply Hstop4; [|exact H]; exact I)].
  destruct (librosa_load E input_audio fs2) as [y|] eqn:L2;
    [|(eapply Hstop4; [|exact H]; exact I)].
  destruct (find_audio_offset v y) as [x|c msg|e] eqn:Est;
    [|(eapply Hstop4; [|exact H]; exact I)..].
  right. exists d, x, fs2. split; [exact W|].
  exists out1, fs1, out2, v, y. auto 10.
Qed.

(** The result of the final pass and the cleanup. *)
Lemma final_pass_result (cmd : command) (w : world) :
  (subprocess_run E cmd true ;;;
   enter Cleanup ;;;
   unlink_missing_ok (temp_audio input_video)) w =
  match run E cmd (files w) with
  | (RunRaised e, fs) => ({| files := fs; trace := trace w |}, Raised e)
  | (Completed code out, fs) =>
      if (code =? 0)%Z
      then ({| files := filter (not_temp_audio input_video) fs;
               trace := trace w ++ [Cleanup] |}, Returned tt)
      else ({| files := fs; trace := trace w |}, Raised CalledProcessError)
  end.
Proof.
  unfold bind at 1. rewrite subprocess_run_result. unfold after_run.
  destruct (run E cmd (files w)) as [[e|code out] fs]; cbn [fst snd];
    [reflexivity|].
  cbn [andb]. destruct (code =? 0)%Z; reflexivity.
Qed.

(** X9.  When the extraction fails the run ends in the exception of
    [subprocess.run], after the duration query and the extraction and
    before anything is decoded: a non-zero return code gives
    [CalledProcessError], a tool that cannot be started its own
    exception. *)
Theorem failed_extraction_stops_run
    (w0 : world) (out1 : string) (fs1 : list path) (d : Q) :
  which E "ffmpeg" = true ->
  run E (duration_query input_audio) (files w0) = (Completed 0 out1, fs1) ->
  py_float E (strip out1) = Some d ->
  (forall code out fs,
      run E (extract_command input_video (temp_audio input_video)) fs1 =
        (Completed code out, fs) ->
      code <> 0%Z ->
      process_video E input_video input_audio output_video w0 =
      ({| files := fs;
          trace := trace w0 ++
                   [CheckFfmpeg; GetAudioDuration; ExtractAudio] |},
       Raised CalledProcessError)) /\
  (forall e fs,
      run E (extract_command input_video (temp_audio input_video)) fs1 =
        (RunRaised e, fs) ->
      process_video E input_video input_audio output_video w0 =
      ({| files := fs;
          trace := trace w0 ++
                   [CheckFfmpeg; GetAudioDuration; ExtractAudio] |},
       Raised e)).
Proof.
  intros W R1 F1.
  split; intros; rewrite (run_to_extract w0 out1 fs1 d W R1 F1);
    unfold bind at 1; rewrite extract_audio_result; unfold after_run;
    cbn [files trace];
    match goal with R : run _ _ _ = _ |- _ => rewrite R end; cbn [fst snd].
  - destruct (Z.eqb_spec code 0); [contradiction|reflexivity].
  - reflexivity.
Qed.

(** X10.  A run returns exactly when [ffmpeg] is found, the duration query,
    the extraction, both decodings and the estimator succeed, and the
    final pass ends with return code 0.  Its calls are then the
    complete sequence, and the files it leaves are those the final
    pass left, without the temporary audio and with nothing else
    removed. *)
Theorem successful_run_iff (w0 wf : world) :
  process_video E input_video input_audio output_video w0 =
    (wf, Returned tt) <->
  exists d x fs2 out fs4,
    estimated E input_video input_audio (files w0) d x fs2 /\
    run E (request E input_video input_audio output_video d x fs2)
          (snd (run E (bitrate_query input_video) fs2)) =
      (Completed 0 out, fs4) /\
    wf = {| files := filter (not_temp_audio input_video) fs4;
            trace := trace w0 ++
                     complete_run
                       (request E input_video input_audio output_video
                          d x fs2) |}.
Proof.
  split.
  - intros H. destruct (run_inversion _ _ _ H) as [[Hf _]|[d [x [fs2 Hest]]]];
      [contradiction|].
    rewrite (run_to_transcode w0 d x fs2 Hest) in H.
    rewrite final_pass_result in H. cbn [files trace] in H.
    destruct (run E _ (snd (run E (bitrate_query input_video) fs2)))
      as [[e|code out] fs4] eqn:R4; [discriminate|].
    destruct (Z.eqb_spec code 0) as [->|Hc]; [|discriminate].
    injection H as <-. exists d, x, fs2, out, fs4.
    split; [exact Hest|]. split; [exact R4|].
    unfold complete_run. rewrite <- !app_assoc. reflexivity.
  - intros [d [x [fs2 [out [fs4 [Hest [R4 ->]]]]]]].
    rewrite (run_to_transcode w0 d x fs2 Hest).
    rewrite final_pass_result. cbn [files trace]. rewrite R4.
    cbn [Z.eqb]. unfold complete_run. rewrite <- !app_assoc. reflexivity.
Qed.

(** X11.  The request of the final pass.  Whenever a run calls the
    transcoder, every earlier call has succeeded, and the command
    seeks the video to the offset the estimator returned, trims to the
    duration the duration query gave for the external audio, fades out
    from one second before that duration, reads the video first, and
    writes the output path last. *)
Theorem transcode_request_shape
    (fs0 : list path) (wf : world) (o : outcome unit) (cmd : command) :
  process_video E input_video input_audio output_video
    {| files := fs0; trace := [] |} = (wf, o) ->
  In (Transcode cmd) (trace wf) ->
  exists d x fs2,
    estimated E input_video input_audio fs0 d x fs2 /\
    cmd = request E input_video input_audio output_video d x fs2 /\
    arg_after "-ss" cmd = Some (FloatStr x) /\
    arg_after "-t" cmd = Some (FloatStr d) /\
    arg_after "-vf" cmd = Some (FadeStr (d - 1)) /\
    arg_after "-i" cmd = Some (PathStr input_video) /\
    last cmd (Str "") = PathStr output_video.
Proof.
  intros H Hin.
  destruct (run_inversion _ _ _ H) as [[_ [n [Hn T]]]|[d [x [fs2 Hest]]]].
  - rewrite T in Hin. cbn [trace app] in Hin.
    destruct n as [|[|[|[|[|n]]]]]; try lia; in_trace Hin.
  - cbn [files] in Hest. exists d, x, fs2.
    rewrite (run_to_transcode {| files := fs0; trace := [] |} d x fs2 Hest)
      in H.
    rewrite final_pass_result in H. cbn [files trace app] in H.
    assert (Hcmd : cmd = request E input_video input_audio output_video
                           d x fs2).
    { destruct (run E _ (snd (run E (bitrate_query input_video) fs2)))
        as [[e|code out] fs4]; [|destruct (code =? 0)%Z];
        injection H as <- <-; in_trace Hin; congruence. }
    split; [exact Hest|]. split; [exact Hcmd|].
    rewrite Hcmd. unfold request.
    destruct (transcode_command_args x d input_video input_audio
                output_video
                (fst (run E (bitrate_query input_video) fs2)))
      as [H1 [H2 [H3 [H4 [_ H5]]]]].
    auto 10.
Qed.

(** ** Runs that fail after the extraction *)

(** C6 (the cleanup is skipped when a run fails).  After an
    extraction that succeeded and left the files [fs2], a run that
    fails removes nothing: when the estimator does not return, the run
    ends with exactly the files [fs2]; when the final pass ends with a
    non-zero return code, it ends in [CalledProcessError] with exactly
    the files the final pass left.  In neither case is the cleanup
    called, so the temporary audio the extraction wrote is still on
    disk. *)
Theorem failed_run_skips_cleanup
    (w0 : world) (out1 : string) (fs1 : list path) (d : Q)
    (out2 : string) (fs2 : list path) :
  which E "ffmpeg" = true ->
  run E (duration_query input_audio) (files w0) = (Completed 0 out1, fs1) ->
  py_float E (strip out1) = Some d ->
  run E (extract_command input_video (temp_audio input_video)) fs1 =
    (Completed 0 out2, fs2) ->
  (forall video_y wav_y,
      librosa_load E (temp_audio input_video) fs2 = Some video_y ->
      librosa_load E input_audio fs2 = Some wav_y ->
      failed (find_audio_offset video_y wav_y) ->
      fst (process_video E input_video input_audio output_video w0) =
        {| files := fs2;
           trace := trace w0 ++
                    [CheckFfmpeg; GetAudioDuration; ExtractAudio;
                     FindAudioOffset] |} /\
      same_failure (find_audio_offset video_y wav_y)
        (snd (process_video E input_video input_audio output_video w0))) /\
  (forall video_y wav_y x code out fs4,
      librosa_load E (temp_audio input_video) fs2 = Some video_y ->
      librosa_load E input_audio fs2 = Some wav_y ->
      find_audio_offset video_y wav_y = Returned x ->
      run E (request E input_video input_audio output_video d x fs2)
            (snd (run E (bitrate_query input_video) fs2)) =
        (Completed code out, fs4) ->
      code <> 0%Z ->
      process_video E input_video input_audio output_video w0 =
      ({| files := fs4;
          trace := trace w0 ++ calls_before_transcode ++
                   [Transcode
                      (request E input_video input_audio output_video
                         d x fs2)] |},
       Raised CalledProcessError)).
Proof.
  intros W R1 F1 R2. split.
  - intros v y L1 L2 Hf.
    assert (Hpv :
      process_video E input_video input_audio output_video w0 =
      ({| files := fs2;
          trace := trace w0 ++
                   [CheckFfmpeg; GetAudioDuration; ExtractAudio;
                    FindAudioOffset] |},
       match find_audio_offset v y with
       | Returned _ => Returned tt
       | Exited c msg => Exited c msg
       | Raised e => Raised e
       end)).
    { rewrite (run_to_extract w0 out1 fs1 d W R1 F1). unfold bind at 1.
      rewrite extract_audio_result. unfold after_run. cbn [files trace].
      rewrite R2. cbn [fst snd Z.eqb].
      rewrite bind_enter. unfold bind at 1. unfold find_audio_offset_io.
      cbn [files trace]. rewrite L1, L2. rewrite <- app_assoc. cbn [app].
      destruct (find_audio_offset v y) as [x|c msg|e];
        [contradiction|reflexivity|reflexivity]. }
    rewrite Hpv. cbn [fst snd]. split; [reflexivity|].
    destruct (find_audio_offset v y) as [x|c msg|e];
      [contradiction|split; reflexivity|reflexivity].
  - intros v y x code out fs4 L1 L2 Est R4 Hc.
    assert (Hest : estimated E input_video input_audio (files w0) d x fs2).
    { split; [exact W|]. exists out1, fs1, out2, v, y. auto 10. }
    rewrite (run_to_transcode w0 d x fs2 Hest), final_pass_result.
    cbn [files trace]. rewrite R4.
    destruct (Z.eqb_spec code 0); [contradiction|reflexivity].
Qed.

(** ** The bitrate *)

(** X12.  A bitrate that is found is the number the query printed: it is
    not negative, and the text handed to the transcoder is digits only
    and reads back as that number. *)
Theorem found_bitrate_is_passed_unchanged
    (video_file : path) (w w' : world) (n : Z) :
  get_video_bitrate E video_file w = (w', Returned (Some n)) ->
  (0 <= n)%Z /\
  isdigit (str_bitrate (Some n)) = true /\
  py_int (str_bitrate (Some n)) = n.
Proof.
  rewrite get_video_bitrate_full. intros [= _ Hn].
  pose proof (bitrate_reply_nonneg _ _ Hn) as H0.
  split; [exact H0|]. apply str_bitrate_roundtrip. exact H0.
Qed.

(** X13.  The bitrate query reads a number through the whitespace
    around it (the newline the tool prints), and does so whatever the
    return code of the tool.  The number has at most 4300 digits, the
    most [int] reads. *)
Theorem bitrate_read_through_whitespace
    (video_file : path) (w : world) (code : Z)
    (ws1 digits ws2 : string) (fs : list path) :
  run E (bitrate_query video_file) (files w) =
    (Completed code (ws1 ++ digits ++ ws2)%string, fs) ->
  all_space ws1 = true -> all_space ws2 = true -> isdigit digits = true ->
  (String.length digits <= 4300)%nat ->
  get_video_bitrate E video_file w =
  ({| files := fs; trace := trace w |}, Returned (Some (py_int digits))).
Proof.
  intros R H1 H2 Hd _. rewrite get_video_bitrate_full. unfold after_run.
  rewrite R. cbn [fst snd bitrate_reply].
  rewrite (strip_digits ws1 digits ws2 H1 H2 Hd), Hd. reflexivity.
Qed.

(** ** The command line of the script *)

Lemma path_exists_In (p : path) (fs : list path) :
  existsb (path_eqb p) fs = true <-> In p fs.
Proof.
  rewrite existsb_exists. unfold path_eqb. split.
  - intros [q [Hq He]].
    destruct (list_eq_dec string_dec p q) as [->|]; [exact Hq|discriminate].
  - intros Hp. exists p. split; [exact Hp|].
    destruct (list_eq_dec string_dec p p); [reflexivity|congruence].
Qed.

(** X14.  The script starts nothing unless it is given three arguments and
    both input files exist: with fewer arguments it exits with code 1
    and the usage line, with an input missing it exits with code 1 and
    its message, in both cases before any tool is looked for or run;
    otherwise it is [process_video] on the three paths, further
    arguments being ignored and the output path not being looked at. *)
Theorem main_guards (Path : string -> path) (argv : list string)
    (w0 wf : world) (o : outcome unit) :
  main E Path argv w0 = (wf, o) ->
  ((length argv < 4)%nat /\ wf = w0 /\ o = Exited 1 usage_message) \/
  ((4 <= length argv)%nat /\
   (~ In (Path (nth 1 argv EmptyString)) (files w0) \/
    ~ In (Path (nth 2 argv EmptyString)) (files w0)) /\
   wf = w0 /\ o = Exited 1 missing_input_message) \/
  ((4 <= length argv)%nat /\
   In (Path (nth 1 argv EmptyString)) (files w0) /\
   In (Path (nth 2 argv EmptyString)) (files w0) /\
   process_video E (Path (nth 1 argv EmptyString))
     (Path (nth 2 argv EmptyString)) (Path (nth 3 argv EmptyString)) w0 =
   (wf, o)).
Proof.
  unfold main. destruct (Nat.ltb_spec (length argv) 4) as [Hn|Hn].
  - intros [= <- <-]. left. auto.
  - unfold bind at 1, py_or, py_not, path_exists, bind, ret.
    destruct (existsb (path_eqb (Path (nth 1 argv EmptyString))) (files w0))
      eqn:Ev; cbn [negb].
    + destruct (existsb (path_eqb (Path (nth 2 argv EmptyString))) (files w0))
        eqn:Ea; cbn [negb].
      * intros H. right. right. rewrite path_exists_In in Ev, Ea. auto.
      * intros [= <- <-]. right. left. split; [exact Hn|].
        split; [|auto]. right. rewrite <- path_exists_In, Ea. discriminate.
    + intros [= <- <-]. right. left. split; [exact Hn|].
      split; [|auto]. left. rewrite <- path_exists_In, Ev. discriminate.
Qed.

End Tools.

Section MoreSampleRuns.
Local Open Scope Q_scope.

Lemma missing_ffmpeg_stops_run_witness :
  process_video (faulty_env false (Completed 0 "12.5") (Completed 0 ""))
    sample_video sample_audio sample_output start_world =
    ({| files := files start_world;
        trace := trace start_world ++ [CheckFfmpeg] |},
     Exited 1 "Error: FFmpeg is not installed or not in PATH.") /\
  exit_code
    (snd (process_video
            (faulty_env false (Completed 0 "12.5") (Completed 0 ""))
            sample_video sample_audio sample_output start_world)) = 1%Z.
Proof.
  apply (missing_ffmpeg_stops_run
           (faulty_env false (Completed 0 "12.5") (Completed 0 ""))).
  reflexivity.
Defined.

Lemma failed_duration_query_stops_run_witness :
  process_video (faulty_env true (Completed 1 "") (Completed 0 ""))
    sample_video sample_audio sample_output start_world =
  ({| files := files start_world;
      trace := trace start_world ++ [CheckFfmpeg; GetAudioDuration] |},
   Exited 1 "Error: Could not determine audio duration.").
Proof.
  destruct (failed_duration_query_stops_run
              (faulty_env true (Completed 1 "") (Completed 0 ""))
              sample_video sample_audio sample_output start_world)
    as [H _].
  - reflexivity.
  - apply (H 1%Z EmptyString); [reflexivity|discriminate].
Defined.

Lemma failed_extraction_stops_run_witness :
  process_video (faulty_env true (Completed 0 "12.5") (Completed 1 ""))
    sample_video sample_audio sample_output start_world =
  ({| files := temp_audio sample_video :: files start_world;
      trace := trace start_world ++
               [CheckFfmpeg; GetAudioDuration; ExtractAudio] |},
   Raised CalledProcessError).
Proof.
  destruct (failed_extraction_stops_run
              (faulty_env true (Completed 0 "12.5") (Completed 1 ""))
              sample_video sample_audio sample_output start_world
              "12.5" (files start_world) (25 # 2))
    as [H _].
  - reflexivity.
  - reflexivity.
  - reflexivity.
  - apply (H 1%Z EmptyString); [reflexivity|discriminate].
Defined.

Lemma successful_run_iff_witness :
  exists d x fs2 out fs4,
    estimated (sample_env "2500000" true [0; 0; 40] [40])
      sample_video sample_audio (files start_world) d x fs2 /\
    run (sample_env "2500000" true [0; 0; 40] [40])
        (request (sample_env "2500000" true [0; 0; 40] [40])
           sample_video sample_audio sample_output d x fs2)
        (snd (run (sample_env "2500000" true [0; 0; 40] [40])
                (bitrate_query sample_video) fs2)) =
      (Completed 0 out, fs4) /\
    fst (sample_run "2500000" true [0; 0; 40] [40]) =
      {| files := filter (not_temp_audio sample_video) fs4;
         trace := trace start_world ++
                  complete_run
                    (request (sample_env "2500000" true [0; 0; 40] [40])
                       sample_video sample_audio sample_output d x fs2) |}.
Proof.
  apply (proj1 (successful_run_iff
                  (sample_env "2500000" true [0; 0; 40] [40])
                  sample_video sample_audio sample_output start_world
                  (fst (sample_run "2500000" true [0; 0; 40] [40])))).
  vm_compute. reflexivity.
Defined.

Lemma transcode_request_shape_witness :
  exists d x,
    arg_after "-ss"
      (transcode_command (1 # 14700) sample_video sample_audio
         (Some 2500000%Z) (25 # 2) sample_output) = Some (FloatStr x) /\
    arg_after "-t"
      (transcode_command (1 # 14700) sample_video sample_audio
         (Some 2500000%Z) (25 # 2) sample_output) = Some (FloatStr d) /\
    arg_after "-vf"
      (transcode_command (1 # 14700) sample_video sample_audio
         (Some 2500000%Z) (25 # 2) sample_output) = Some (FadeStr (d - 1)).
Proof.
  destruct (transcode_request_shape
              (sample_env "2500000" true [0; 0; 40] [40])
              sample_video sample_audio sample_output (files start_world)
              (fst (sample_run "2500000" true [0; 0; 40] [40]))
              (snd (sample_run "2500000" true [0; 0; 40] [40]))
              (transcode_command (1 # 14700) sample_video sample_audio
                 (Some 2500000%Z) (25 # 2) sample_output))
    as [d [x [_ [_ [_ [H1 [H2 [H3 _]]]]]]]].
  - vm_compute. reflexivity.
  - vm_compute. auto 10.
  - exists d, x. auto.
Defined.

Lemma failed_run_skips_cleanup_witness :
  sample_run "2500000" false [0; 0; 40] [40] =
    ({| files := temp_audio sample_video :: files start_world;
        trace := trace start_world ++ calls_before_transcode ++
                 [Transcode
                    (request (sample_env "2500000" false [0; 0; 40] [40])
                       sample_video sample_audio sample_output
                       (25 # 2) (1 # 14700)
                       (temp_audio sample_video :: files start_world))] |},
     Raised CalledProcessError) /\
  In (temp_audio sample_video)
     (files (fst (sample_run "2500000" false [0; 0; 40] [40]))).
Proof.
  destruct (failed_run_skips_cleanup
              (sample_env "2500000" false [0; 0; 40] [40])
              sample_video sample_audio sample_output start_world
              "12.5" (files start_world) (25 # 2)
              EmptyString (temp_audio sample_video :: files start_world))
    as [_ H]; try reflexivity.
  unfold sample_run.
  rewrite (H [0; 0; 40] [40] (1 # 14700) 1%Z EmptyString
             (temp_audio sample_video :: files start_world));
    try reflexivity; [|discriminate].
  split; [reflexivity|]. left. reflexivity.
Defined.

Lemma found_bitrate_is_passed_unchanged_witness :
  (0 <= 2500000)%Z /\
  isdigit (str_bitrate (Some 2500000%Z)) = true /\
  py_int (str_bitrate (Some 2500000%Z)) = 2500000%Z.
Proof.
  apply (found_bitrate_is_passed_unchanged
           (sample_env "2500000" true [] []) sample_video start_world
           start_world).
  vm_compute. reflexivity.
Defined.

Lemma bitrate_read_through_whitespace_witness :
  get_video_bitrate
    (sample_env (" " ++ "2500000" ++ String (ascii_of_nat 10) "") true [] [])
    sample_video start_world =
  ({| files := files start_world; trace := trace start_world |},
   Returned (Some (py_int "2500000"))).
Proof.
  apply (bitrate_read_through_whitespace
           (sample_env (" " ++ "2500000" ++ String (ascii_of_nat 10) "")
              true [] [])
           sample_video start_world 0%Z " " "2500000"
           (String (ascii_of_nat 10) "")); try reflexivity.
  cbn [String.length]. lia.
Defined.

Lemma main_guards_witness :
  ((length ["cut.py"; "sermon.mp4"]%string < 4)%nat /\
   start_world = start_world /\
   Exited 1 usage_message = Exited (A := unit) 1 usage_message) \/
  ((4 <= length ["cut.py"; "sermon.mp4"]%string)%nat /\
   (~ In [nth 1 ["cut.py"; "sermon.mp4"]%string EmptyString]
         (files start_world) \/
    ~ In [nth 2 ["cut.py"; "sermon.mp4"]%string EmptyString]
         (files start_world)) /\
   start_world = start_world /\
   Exited 1 usage_message = Exited (A := unit) 1 missing_input_message) \/
  ((4 <= length ["cut.py"; "sermon.mp4"]%string)%nat /\
   In [nth 1 ["cut.py"; "sermon.mp4"]%string EmptyString]
      (files start_world) /\
   In [nth 2 ["cut.py"; "sermon.mp4"]%string EmptyString]
      (files start_world) /\
   process_video (sample_env "2500000" true [] [])
     [nth 1 ["cut.py"; "sermon.mp4"]%string EmptyString]
     [nth 2 ["cut.py"; "sermon.mp4"]%string EmptyString]
     [nth 3 ["cut.py"; "sermon.mp4"]%string EmptyString] start_world =
   (start_world, Exited 1 usage_message)).
Proof.
  apply (main_guards (sample_env "2500000" true [] []) (fun s => [s])
           ["cut.py"; "sermon.mp4"]%string start_world start_world
           (Exited 1 usage_message)).
  reflexivity.
Defined.

End MoreSampleRuns.
